(** * split_meetups_by_pubdate_year.py: a shallow embedding and its properties

    The script reads a JSON array of meetup records, fetches the RSS feed of
    each record, looks for an item published in the target year, and writes
    three JSON files: the records with such an item, the records without,
    and the list of per-record errors.

    What is modelled:
    - Python values as they come out of [json.load] ([pyval]);
    - [xml.etree.ElementTree] elements with [find], [findall], [findtext];
    - exceptions as an error type, [try]/[except] as a catch combinator;
    - the network, the random generator and the files written as a [World]
      threaded through the run, with a trace of the effects performed.

    What comes from outside the repository is a parameter of the
    development: the HTTP client, the XML parser, [parsedate_to_datetime],
    [str.lower], [random.randint], the content of the input file and the
    [TARGET_YEAR] environment variable.

    The run is given at two levels.  The first, [main], leaves the console
    out and takes [Request] and the writing of a file for steps that do not
    fail; the properties of the classifier, of the turn of the loop on one
    record and of the runs that complete are stated on it.  The second,
    [main_io], adds what can go wrong there: a line that the console cannot
    encode, a URL that [Request] refuses, a file that cannot be opened, a
    string that UTF-8 cannot encode; the properties that speak of every run,
    or of what an aborted run leaves behind, are stated on it.  Where
    [Request] takes every URL, a run that completes at the second level is
    the same run at the first ([main_io_plain]).

    At both levels the console itself stays available ([print] fails on
    what it cannot encode, not on a closed pipe), and the textual layout
    that [json.dump] produces is not modelled: a file write is recorded with
    the value dumped. *)

From Stdlib Require Import List ZArith NArith Bool Arith Lia.
From Stdlib Require Import String Ascii DecimalString.
From Stdlib Require Import Sorted Permutation.
From Stdlib Require Import Floats.SpecFloat.
From Stdlib Require DecimalNat DecimalFacts.
Import ListNotations.

Set Warnings "-register-all".

Local Open Scope list_scope.

(** ** Strings *)

(** A Python [str] is a sequence of code points.  Comparison of two [str]
    is lexicographic on the code points. *)
Definition pystr : Type := list N.

(** A literal of the source. *)
Definition u (s : string) : pystr := map N_of_ascii (list_ascii_of_string s).

Fixpoint str_eqb (a b : pystr) : bool :=
  match a, b with
  | [], [] => true
  | x :: a', y :: b' => N.eqb x y && str_eqb a' b'
  | _, _ => false
  end.

(** [a <= b] on [str]. *)
Fixpoint str_leb (a b : pystr) : bool :=
  match a, b with
  | [], _ => true
  | _ :: _, [] => false
  | x :: a', y :: b' =>
      if N.ltb x y then true
      else if N.eqb x y then str_leb a' b'
      else false
  end.

Definition str_le (a b : pystr) : Prop := str_leb a b = true.

(** [str(n)] for an [int]. *)
Definition str_of_nat (n : nat) : pystr := u (NilZero.string_of_uint (Nat.to_uint n)).
Definition str_of_Z (z : Z) : pystr := u (NilZero.string_of_int (Z.to_int z)).

(** ** Values produced by [json.load] *)

Inductive pyval : Type :=
| PyNone
| PyBool (b : bool)
| PyInt (z : Z)
| PyFloat (f : spec_float)
| PyStr (s : pystr)
| PyList (l : list pyval)
| PyDict (kvs : list (pystr * pyval)).

(** Truth value of an object, as [not x] and [x or y] test it. *)
Definition truthy (v : pyval) : bool :=
  match v with
  | PyNone => false
  | PyBool b => b
  | PyInt z => negb (Z.eqb z 0)
  | PyFloat (S754_zero _) => false
  | PyFloat _ => true
  | PyStr [] => false
  | PyStr (_ :: _) => true
  | PyList [] => false
  | PyList (_ :: _) => true
  | PyDict [] => false
  | PyDict (_ :: _) => true
  end.

(** ** Exceptions *)

Inductive exn : Type :=
| HTTPError (code : Z) (reason : pystr)
| URLError (reason : pystr)
| ParseError (msg : pystr)
| AttributeError (msg : pystr)
| TypeError (msg : pystr)
| OtherException (msg : pystr).

(** [str(e)], used by the last handler of the loop, which the first three
    classes never reach. *)
Definition exn_str (e : exn) : pystr :=
  match e with
  | HTTPError code reason => u "HTTP Error " ++ str_of_Z code ++ u ": " ++ reason
  | URLError reason => u "<urlopen error " ++ reason ++ u ">"
  | ParseError msg => msg
  | AttributeError msg => msg
  | TypeError msg => msg
  | OtherException msg => msg
  end.

Definition result (A : Type) : Type := (exn + A)%type.

Definition rbind {A B : Type} (r : result A) (k : A -> result B) : result B :=
  match r with
  | inl e => inl e
  | inr a => k a
  end.

(** ** Dictionaries *)

Fixpoint assoc (k : pystr) (kvs : list (pystr * pyval)) : option pyval :=
  match kvs with
  | [] => None
  | (k', v) :: rest => if str_eqb k k' then Some v else assoc k rest
  end.

Definition type_name (v : pyval) : pystr :=
  match v with
  | PyNone => u "NoneType"
  | PyBool _ => u "bool"
  | PyInt _ => u "int"
  | PyFloat _ => u "float"
  | PyStr _ => u "str"
  | PyList _ => u "list"
  | PyDict _ => u "dict"
  end.

Definition no_attribute (v : pyval) (attr : string) : exn :=
  AttributeError (u "'" ++ type_name v ++ u "' object has no attribute '" ++ u attr ++ u "'").

(** [x.get(k)]: the value at [k], [None] when the key is absent; only a
    [dict] has the method. *)
Definition py_get (x : pyval) (k : pystr) : result pyval :=
  match x with
  | PyDict kvs =>
      match assoc k kvs with
      | Some v => inr v
      | None => inr PyNone
      end
  | _ => inl (no_attribute x "get")
  end.

(** [len(x)] *)
Definition py_len (x : pyval) : result nat :=
  match x with
  | PyStr s => inr (List.length s)
  | PyList l => inr (List.length l)
  | PyDict kvs => inr (List.length kvs)
  | _ => inl (TypeError (u "object of type '" ++ type_name x ++ u "' has no len()"))
  end.

(** The elements a [for] loop over [x] visits: the elements of a list, the
    keys of a dict, the characters of a str. *)
Definition py_iter (x : pyval) : result (list pyval) :=
  match x with
  | PyStr s => inr (map (fun c => PyStr [c]) s)
  | PyList l => inr l
  | PyDict kvs => inr (map (fun kv => PyStr (fst kv)) kvs)
  | _ => inl (TypeError (u "'" ++ type_name x ++ u "' object is not iterable"))
  end.

(** ** ElementTree *)

Inductive Element : Type :=
| Elem (tag : pystr) (text : option pystr) (children : list Element).

Definition tag_of (e : Element) : pystr := let '(Elem t _ _) := e in t.
Definition text_of (e : Element) : option pystr := let '(Elem _ t _) := e in t.
Definition children_of (e : Element) : list Element := let '(Elem _ _ c) := e in c.

(** [e.findall(tag)]: the direct children with that tag, in document order. *)
Definition findall (tag : pystr) (e : Element) : list Element :=
  filter (fun c => str_eqb (tag_of c) tag) (children_of e).

(** [e.find(tag)]: the first of them, or [None]. *)
Definition find (tag : pystr) (e : Element) : option Element :=
  List.find (fun c => str_eqb (tag_of c) tag) (children_of e).

(** [e.findtext(tag)]: the text of the first such child, the empty string
    when that child has no text, [None] when there is no such child. *)
Definition findtext (tag : pystr) (e : Element) : option pystr :=
  match find tag e with
  | Some c =>
      match text_of c with
      | Some t => Some t
      | None => Some []
      end
  | None => None
  end.

Record datetime : Type := mk_datetime { year : Z; month : Z; day : Z }.

Definition bytes : Type := list Byte.byte.

(** ** Constants of the script *)

Definition OUT_WITH : pystr := u "meetups_with_pubdate_2026.json".
Definition OUT_WITHOUT : pystr := u "meetups_without_pubdate_2026.json".
Definition OUT_ERRORS : pystr := u "meetups_rss_errors.json".

Definition SLEEP_MIN_SECS : Z := 10.
Definition SLEEP_MAX_SECS : Z := 60.

(** ** The tally line *)

Definition DEFAULT_MASTER_JSON : pystr := u "master_meetups.json".

(** [fmt_tally]; its callers pass the counters of [main] and [len(meetups)],
    which are not negative. *)
Definition fmt_tally (processed total matched no_match err : nat) : pystr :=
  u "TALLY processed " ++ str_of_nat processed ++ u "/" ++ str_of_nat total
  ++ u " | MATCH " ++ str_of_nat matched
  ++ u " | NO-MATCH " ++ str_of_nat no_match
  ++ u " | ERROR " ++ str_of_nat err.

(** ** What can be written to a UTF-8 file *)

(** The code points U+D800 to U+DFFF, which UTF-8 does not encode. *)
Definition is_surrogate (c : N) : bool := N.leb 55296 c && N.leb c 57343.

Definition utf8_ok (s : pystr) : bool := forallb (fun c => negb (is_surrogate c)) s.

(** [json.dump(v, f, ensure_ascii=False, indent=2)] into a file opened with
    [encoding="utf-8"] goes through when no string of [v], key or value,
    holds a surrogate; otherwise the write of that string raises
    [UnicodeEncodeError]. *)
Fixpoint dumpable (v : pyval) : bool :=
  match v with
  | PyStr s => utf8_ok s
  | PyList l =>
      (fix all (l : list pyval) : bool :=
         match l with
         | [] => true
         | x :: rest => dumpable x && all rest
         end) l
  | PyDict kvs =>
      (fix all (kvs : list (pystr * pyval)) : bool :=
         match kvs with
         | [] => true
         | (k, x) :: rest => utf8_ok k && dumpable x && all rest
         end) kvs
  | _ => true
  end.

(** The effects of a run, the console and the files included. *)
Inductive io_event : Type :=
| Requested (url : pyval)
    (* [urlopen] was called for the URL *)
| Slept (secs : Z)
| Wrote (path : pystr) (content : list pyval)
    (* the file holds the dump of [content] *)
| LeftPartial (path : pystr) (content : list pyval)
    (* the file was opened, and so emptied; the dump raised part-way *).

(** ** A concrete environment

    A small world on which the definitions evaluate: five feeds, a file
    system with a few input files, a linear congruential generator. *)

Module Demo.

Definition url_match : pyval := PyStr (u "https://a.example/rss").
Definition url_other_year : pyval := PyStr (u "https://b.example/rss").
Definition url_gone : pyval := PyStr (u "https://c.example/rss").
Definition url_bad_date : pyval := PyStr (u "https://d.example/rss").
Definition url_not_xml : pyval := PyStr (u "https://e.example/rss").

Definition date_2026 : pystr := u "Tue, 03 Mar 2026 10:00:00 +0000".
Definition date_2025 : pystr := u "Mon, 01 Dec 2025 09:00:00 +0000".

Definition item_with (pub : option pystr) : Element :=
  Elem (u "item") None
    [ Elem (u "title") (Some (u "Meetup")) []; Elem (u "pubDate") pub [] ].

Definition item_without_date : Element :=
  Elem (u "item") None [ Elem (u "title") (Some (u "Meetup")) [] ].

Definition feed (items : list Element) : Element :=
  Elem (u "rss") None
    [ Elem (u "channel") None (Elem (u "title") (Some (u "Events")) [] :: items) ].

Definition feed_match : Element :=
  feed [ item_with (Some date_2025); item_with (Some date_2026) ].
Definition feed_other_year : Element :=
  feed [ item_with (Some date_2025) ].
Definition feed_bad_date : Element :=
  feed [ item_with (Some (u "next tuesday")); item_with (Some date_2025) ].
Definition feed_no_channel : Element :=
  Elem (u "html") None [ Elem (u "body") None [] ].

Definition bytes_match : bytes := [Byte.x41].
Definition bytes_other_year : bytes := [Byte.x42].
Definition bytes_bad_date : bytes := [Byte.x44].
Definition bytes_not_xml : bytes := [Byte.x45].
Definition bytes_no_channel : bytes := [Byte.x46].

Definition same_bytes (a b : bytes) : bool :=
  str_eqb (map Byte.to_N a) (map Byte.to_N b).

Definition fromstring (b : bytes) : result Element :=
  if same_bytes b bytes_match then inr feed_match
  else if same_bytes b bytes_other_year then inr feed_other_year
  else if same_bytes b bytes_bad_date then inr feed_bad_date
  else if same_bytes b bytes_no_channel then inr feed_no_channel
  else inl (ParseError (u "syntax error: line 1, column 0")).

Definition parsedate_to_datetime (s : pystr) : option datetime :=
  if str_eqb s date_2026 then Some (mk_datetime 2026 3 3)
  else if str_eqb s date_2025 then Some (mk_datetime 2025 12 1)
  else None.

(** The remote side counts the requests it has served. *)
Definition response (url : pyval) : result bytes :=
  match url with
  | PyStr s =>
      if str_eqb s (u "https://a.example/rss") then inr bytes_match
      else if str_eqb s (u "https://b.example/rss") then inr bytes_other_year
      else if str_eqb s (u "https://c.example/rss") then inl (HTTPError 404 (u "Not Found"))
      else if str_eqb s (u "https://d.example/rss") then inr bytes_bad_date
      else if str_eqb s (u "https://e.example/rss") then inr bytes_not_xml
      else inl (URLError (u "[Errno -2] Name or service not known"))
  | _ => inl (AttributeError (u "object has no attribute 'timeout'"))
  end.

Definition urlopen_read (url : pyval) (n : nat) : result bytes * nat :=
  (response url, S n).

Definition randint (lo hi : Z) (g : Z) : Z * Z :=
  ((lo + g mod (hi - lo + 1))%Z, ((1103515245 * g + 12345) mod 2147483648)%Z).

(** Lower case on the letters A to Z. *)
Definition lower (s : pystr) : pystr :=
  map (fun c => if (N.leb 65 c && N.leb c 90)%bool then (c + 32)%N else c) s.

Definition record (id : string) (url : pyval) : pyval :=
  PyDict [ (u "meetupID", PyStr (u id)); (u "meetupUrlRss", url) ].

Definition rec_match : pyval := record "Zurich" url_match.
Definition rec_other_year : pyval := record "berlin" url_other_year.
Definition rec_gone : pyval := record "Austin" url_gone.
Definition rec_bad_date : pyval := record "denver" url_bad_date.
Definition rec_not_xml : pyval := record "Cairo" url_not_xml.
Definition rec_no_url : pyval := PyDict [ (u "meetupID", PyStr (u "Oslo")) ].
Definition rec_anonymous : pyval := PyDict [ (u "meetupUrlRss", url_match) ].
Definition rec_numeric_id : pyval :=
  PyDict [ (u "meetupID", PyInt 7); (u "meetupUrlRss", url_match) ].

Definition master : list pyval :=
  [ rec_match; rec_other_year; rec_gone; rec_bad_date; rec_not_xml;
    rec_no_url; rec_anonymous ].

Definition json_load (path : pystr) : result pyval :=
  if str_eqb path (u "master_meetups.json") then inr (PyList master)
  else if str_eqb path (u "one_missing_url.json") then inr (PyList [rec_no_url])
  else if str_eqb path (u "stray_number.json") then inr (PyList [rec_match; PyInt 5])
  else if str_eqb path (u "numeric_id.json") then inr (PyList [rec_numeric_id])
  else inl (OtherException (u "[Errno 2] No such file or directory")).

Definition TARGET_YEAR : Z := 2026.

End Demo.

(** More documents, input files and records for the same environment. *)

Module Demo2.

Definition item_2025 : Element := Demo.item_with (Some Demo.date_2025).
Definition item_2026 : Element := Demo.item_with (Some Demo.date_2026).

Definition channel_a : Element := Elem (u "channel") None [item_2025; item_2026].
Definition channel_b : Element :=
  Elem (u "channel") None
    [ item_2026; Elem (u "link") (Some (u "https://a.example")) []; item_2025 ].
Definition channel_old : Element := Elem (u "channel") None [item_2025].
Definition channel_new : Element := Elem (u "channel") None [item_2026].

Definition doc_a : Element := Elem (u "rss") None [channel_a].
Definition doc_b : Element :=
  Elem (u "rss") None [ Elem (u "title") None []; channel_b ].
Definition doc_two_channels : Element :=
  Elem (u "rss") None [channel_old; channel_new].
Definition doc_one_channel : Element := Elem (u "rss") None [channel_old].

Definition bytes_a : bytes := [Byte.x61].
Definition bytes_b : bytes := [Byte.x62].
Definition bytes_two_channels : bytes := [Byte.x63].
Definition bytes_one_channel : bytes := [Byte.x64].

Definition fromstring (b : bytes) : result Element :=
  if Demo.same_bytes b bytes_a then inr doc_a
  else if Demo.same_bytes b bytes_b then inr doc_b
  else if Demo.same_bytes b bytes_two_channels then inr doc_two_channels
  else if Demo.same_bytes b bytes_one_channel then inr doc_one_channel
  else inl (ParseError (u "syntax error: line 1, column 0")).

Definition json_load (path : pystr) : result pyval :=
  if str_eqb path (u "empty.json") then inr (PyList [])
  else if str_eqb path (u "object.json")
       then inr (PyDict [ (u "meetups", PyList [Demo.rec_match]) ])
  else if str_eqb path (u "null.json") then inr PyNone
  else inl (OtherException (u "[Errno 2] No such file or directory")).

Definition rec_upper : pyval := Demo.record "OSLO" Demo.url_match.
Definition rec_lower : pyval := Demo.record "oslo" Demo.url_gone.

End Demo2.

(** A console that has ASCII only, a [Request] that wants an [https] URL,
    and records with a surrogate in them. *)

Module Demo3.

Definition lone_surrogate : pystr := [55296%N].

(** A UTF-8 console: a [str] goes through unless it holds a surrogate;
    the text of any other value has its strings in [repr] form, where a
    surrogate is written as an escape. *)
Definition printable (v : pyval) : bool :=
  match v with
  | PyStr s => utf8_ok s
  | _ => true
  end.

Definition encode_error_text (v : pyval) : pystr :=
  u "'utf-8' codec can't encode character: surrogates not allowed".

Definition dump_error_text (content : list pyval) : pystr :=
  u "'utf-8' codec can't encode character: surrogates not allowed".

Fixpoint has_prefix (p s : pystr) : bool :=
  match p, s with
  | [], _ => true
  | x :: p', y :: s' => N.eqb x y && has_prefix p' s'
  | _ :: _, [] => false
  end.

Definition make_request (url : pyval) : option exn :=
  match url with
  | PyStr s =>
      if has_prefix (u "https://") s then None
      else Some (OtherException (u "unknown url type"))
  | _ => Some (AttributeError (u "object has no attribute 'timeout'"))
  end.

Definition open_write (path : pystr) : option exn := None.

Definition rec_surrogate_id : pyval := PyDict [ (u "meetupID", PyStr lone_surrogate) ].
Definition rec_surrogate_field : pyval :=
  PyDict [ (u "meetupID", PyStr (u "Oslo")); (u "city", PyStr lone_surrogate) ].
Definition rec_not_a_url : pyval :=
  PyDict [ (u "meetupID", PyStr (u "Lima")); (u "meetupUrlRss", PyStr (u "not a url")) ].

Definition json_load (path : pystr) : result pyval :=
  if str_eqb path (u "surrogate_id.json")
  then inr (PyList [rec_surrogate_id; Demo.rec_no_url])
  else if str_eqb path (u "surrogate_field.json")
  then inr (PyList [rec_surrogate_field])
  else if str_eqb path (u "not_a_url.json")
  then inr (PyList [rec_not_a_url; Demo.rec_match])
  else Demo.json_load path.

Definition feed_empty_date : Element := Demo.feed [ Demo.item_with (Some []) ].
Definition bytes_empty_date : bytes := [Byte.x47].

Definition fromstring (b : bytes) : result Element :=
  if Demo.same_bytes b bytes_empty_date then inr feed_empty_date
  else Demo.fromstring b.

End Demo3.

(** ** The program *)

(** The effects of a run that the properties below speak about. *)
Inductive event : Type :=
| EFetch (url : pyval)
| ESleep (secs : Z)
| EWrite (path : pystr) (content : list pyval).

(** The accumulators of [main]. *)
Record State : Type := mk_State {
  with_events : list pyval;
  without_events : list pyval;
  errors : list pyval;
  matched_count : nat;
  no_match_count : nat;
  error_count : nat;
  processed : nat
}.

Definition init_State : State := mk_State [] [] [] 0 0 0 0.

Section Program.

(** The network: [urlopen_read url] is [urlopen(Request(url, headers=HEADERS),
    timeout=HTTP_TIMEOUT_SECS)] followed by [resp.read()], on some state of
    the remote side; it yields the bytes or raises. *)
Variable Net : Type.
Variable urlopen_read : pyval -> Net -> result bytes * Net.

(** The generator behind [random.randint]. *)
Variable RNG : Type.
Variable randint : Z -> Z -> RNG -> Z * RNG.

(** [ET.fromstring]: the root element, or an exception. *)
Variable fromstring : bytes -> result Element.

(** [email.utils.parsedate_to_datetime]; [None] stands for any exception
    it raises. *)
Variable parsedate_to_datetime : pystr -> option datetime.

(** [str.lower] *)
Variable lower : pystr -> pystr.

(** [open(path)] and [json.load]: the value read, or an exception. *)
Variable json_load : pystr -> result pyval.

(** [int(os.environ.get("TARGET_YEAR", "2026"))] *)
Variable TARGET_YEAR : Z.

Record World : Type := mk_World {
  net : Net;
  rng : RNG;
  trace : list event
}.

(** Computations of the script: they may raise and they act on the world. *)
Definition M (A : Type) : Type := World -> result A * World.

Definition ret {A : Type} (a : A) : M A := fun w => (inr a, w).

Definition raise {A : Type} (e : exn) : M A := fun w => (inl e, w).

Definition bind {A B : Type} (c : M A) (k : A -> M B) : M B :=
  fun w =>
    match c w with
    | (inl e, w') => (inl e, w')
    | (inr a, w') => k a w'
    end.

Definition lift {A : Type} (r : result A) : M A := fun w => (r, w).

(** [try: c except Exception as e: h e] *)
Definition try_except {A : Type} (c : M A) (h : exn -> M A) : M A :=
  fun w =>
    match c w with
    | (inl e, w') => h e w'
    | (inr a, w') => (inr a, w')
    end.

Notation "x <- c ;; k" := (bind c (fun x => k))
  (at level 61, c at next level, right associativity).
Notation "c ;;; k" := (bind c (fun _ => k))
  (at level 61, right associativity).

Definition emit (e : event) : M unit :=
  fun w => (inr tt, mk_World (net w) (rng w) (trace w ++ [e])).

Definition sleep_random (meetup_id : pyval) : M unit :=
  fun w =>
    let '(s, g) := randint SLEEP_MIN_SECS SLEEP_MAX_SECS (rng w) in
    (inr tt, mk_World (net w) g (trace w ++ [ESleep s])).

Definition http_get_bytes (url : pyval) : M bytes :=
  fun w =>
    let '(r, n) := urlopen_read url (net w) in
    (r, mk_World n (rng w) (trace w ++ [EFetch url])).

(** *** The classifier *)

(** One turn of the loop over the items: the three counters before and
    after. *)
Definition item_step (target_year : Z) (item : Element)
    (acc : bool * nat * nat) : bool * nat * nat :=
  let '(has_match, pubdates_seen, pubdates_parsed) := acc in
  match findtext (u "pubDate") item with
  | None => acc
  | Some [] => acc
  | Some pub =>
      let pubdates_seen := S pubdates_seen in
      match parsedate_to_datetime pub with
      | Some dt =>
          let pubdates_parsed := S pubdates_parsed in
          if Z.eqb (year dt) target_year
          then (true, pubdates_seen, pubdates_parsed)
          else (has_match, pubdates_seen, pubdates_parsed)
      | None => (has_match, pubdates_seen, pubdates_parsed)
      end
  end.

Fixpoint scan_items (target_year : Z) (items : list Element)
    (acc : bool * nat * nat) : bool * nat * nat :=
  match items with
  | [] => acc
  | item :: rest => scan_items target_year rest (item_step target_year item acc)
  end.

Definition rss_has_pubdate_year (xml_bytes : bytes) (target_year : Z)
    : result (bool * nat * nat) :=
  rbind (fromstring xml_bytes) (fun root =>
    match find (u "channel") root with
    | None => inr (false, 0, 0)
    | Some channel =>
        inr (scan_items target_year (findall (u "item") channel) (false, 0, 0))
    end).

(** *** The loop of [main] *)

(** [m.get("meetupID") or m.get("meetupName") or f"row-{idx}"] *)
Definition resolve_id (idx : nat) (m : pyval) : result pyval :=
  rbind (py_get m (u "meetupID")) (fun a =>
    if truthy a then inr a
    else rbind (py_get m (u "meetupName")) (fun b =>
      if truthy b then inr b
      else inr (PyStr (u "row-" ++ str_of_nat idx)))).

Definition missing_url_entry (meetup_id : pyval) : pyval :=
  PyDict [ (u "meetupID", meetup_id);
           (u "error", PyStr (u "missing meetupUrlRss")) ].

Definition error_entry (meetup_id rss_url : pyval) (msg : pystr) : pyval :=
  PyDict [ (u "meetupID", meetup_id);
           (u "meetupUrlRss", rss_url);
           (u "error", PyStr msg) ].

(** The body shared by the four [except] clauses, which differ in [msg]. *)
Definition on_error (m meetup_id rss_url : pyval) (msg : pystr) (st : State) : State :=
  mk_State (with_events st)
           (without_events st ++ [m])
           (errors st ++ [error_entry meetup_id rss_url msg])
           (matched_count st) (no_match_count st)
           (S (error_count st)) (S (processed st)).

Definition handler (m meetup_id rss_url : pyval) (st : State) (e : exn) : M State :=
  match e with
  | HTTPError code reason =>
      ret (on_error m meetup_id rss_url
             (u "HTTPError " ++ str_of_Z code ++ u ": " ++ reason) st)
  | URLError reason =>
      ret (on_error m meetup_id rss_url (u "URLError: " ++ reason) st)
  | ParseError msg =>
      ret (on_error m meetup_id rss_url (u "XML ParseError: " ++ msg) st)
  | _ =>
      ret (on_error m meetup_id rss_url (exn_str e) st)
  end.

Definition on_missing_url (m meetup_id : pyval) (st : State) : State :=
  mk_State (with_events st)
           (without_events st ++ [m])
           (errors st ++ [missing_url_entry meetup_id])
           (matched_count st) (no_match_count st)
           (S (error_count st)) (S (processed st)).

Definition on_match (m : pyval) (st : State) : State :=
  mk_State (with_events st ++ [m]) (without_events st) (errors st)
           (S (matched_count st)) (no_match_count st)
           (error_count st) (S (processed st)).

Definition on_no_match (m : pyval) (st : State) : State :=
  mk_State (with_events st) (without_events st ++ [m]) (errors st)
           (matched_count st) (S (no_match_count st))
           (error_count st) (S (processed st)).

(** The [try] block: fetch, classify, route. *)
Definition fetch_and_classify (m rss_url : pyval) (st : State) : M State :=
  xml_bytes <- http_get_bytes rss_url ;;
  r <- lift (rss_has_pubdate_year xml_bytes TARGET_YEAR) ;;
  let '(has_match, _, _) := r in
  if has_match then ret (on_match m st) else ret (on_no_match m st).

(** One turn of the loop over the records. *)
Definition loop_body (idx : nat) (m : pyval) (st : State) : M State :=
  meetup_id <- lift (resolve_id idx m) ;;
  rss_url <- lift (py_get m (u "meetupUrlRss")) ;;
  if negb (truthy rss_url) then
    ret (on_missing_url m meetup_id st)
  else
    st' <- try_except (fetch_and_classify m rss_url st)
                      (handler m meetup_id rss_url st) ;;
    sleep_random meetup_id ;;;
    ret st'.

(** [for idx, m in enumerate(meetups, start=idx)] *)
Fixpoint for_each (idx : nat) (meetups : list pyval) (st : State) : M State :=
  match meetups with
  | [] => ret st
  | m :: rest =>
      st' <- loop_body idx m st ;;
      for_each (S idx) rest st'
  end.

(** *** Sorting *)

(** [(x.get("meetupID") or "").lower()]; only a [str] has [lower]. *)
Definition sort_key (x : pyval) : result pystr :=
  rbind (py_get x (u "meetupID")) (fun a =>
    let v := if truthy a then a else PyStr [] in
    match v with
    | PyStr s => inr (lower s)
    | _ => inl (no_attribute v "lower")
    end).

Fixpoint keys_of (l : list pyval) : result (list pystr) :=
  match l with
  | [] => inr []
  | x :: rest =>
      rbind (sort_key x) (fun k =>
      rbind (keys_of rest) (fun ks => inr (k :: ks)))
  end.

(** [list.sort] is stable: of two elements with equal keys, the one that
    came first stays first.  Insertion from the right, each element placed
    before the first one whose key is not smaller, sorts that way. *)
Fixpoint insert_keyed (kx : pystr * pyval) (l : list (pystr * pyval))
    : list (pystr * pyval) :=
  match l with
  | [] => [kx]
  | ky :: rest =>
      if str_leb (fst kx) (fst ky) then kx :: ky :: rest
      else ky :: insert_keyed kx rest
  end.

Fixpoint stable_sort (l : list (pystr * pyval)) : list (pystr * pyval) :=
  match l with
  | [] => []
  | kx :: rest => insert_keyed kx (stable_sort rest)
  end.

(** [l.sort(key=lambda x: (x.get("meetupID") or "").lower())]: the keys
    are computed first, for every element. *)
Definition sort_by_id (l : list pyval) : result (list pyval) :=
  rbind (keys_of l) (fun ks => inr (map snd (stable_sort (combine ks l)))).

(** *** [main] *)

Definition write_json (path : pystr) (content : list pyval) : M unit :=
  emit (EWrite path content).

(** From the loaded value to the end of the loop. *)
Definition classify_all (meetups : pyval) : M State :=
  total <- lift (py_len meetups) ;;
  rows <- lift (py_iter meetups) ;;
  for_each 1 rows init_State.

(** The three sorts and the three files. *)
Definition sort_and_write (st : State) : M unit :=
  w_sorted <- lift (sort_by_id (with_events st)) ;;
  wo_sorted <- lift (sort_by_id (without_events st)) ;;
  e_sorted <- lift (sort_by_id (errors st)) ;;
  write_json OUT_WITH w_sorted ;;;
  write_json OUT_WITHOUT wo_sorted ;;;
  write_json OUT_ERRORS e_sorted.

Definition main (master_path : pystr) : M unit :=
  meetups <- lift (json_load master_path) ;;
  st <- classify_all meetups ;;
  sort_and_write st.

(** The [__main__] block: the first command-line argument, when there is
    one, is the input file. *)
Definition script (argv : list pystr) : M unit :=
  main (if Nat.ltb 1 (List.length argv)
        then nth 1 argv DEFAULT_MASTER_JSON
        else DEFAULT_MASTER_JSON).

(** ** The run with its console and its files

    The same script, with what the sections above leave out: [print] raises
    [UnicodeEncodeError] when the console cannot encode a value it is given,
    [Request] may refuse a URL before anything is sent, [open] may fail and
    [json.dump] raises on a string that UTF-8 cannot encode.  The
    accumulators are part of the state that is threaded through, so that what
    was appended before an exception stays appended.

    The fixed text of the lines printed and the numbers in them are ASCII,
    which every console encoding has: a line fails to print only through the
    identifier, the URL or the message it carries. *)

(** [Request(url, headers=HEADERS)]: the exception it raises, if any. *)
Variable make_request : pyval -> option exn.

(** [str(v)] can be encoded for the console. *)
Variable printable : pyval -> bool.

(** [str(e)] of the [UnicodeEncodeError] that printing [v] raises. *)
Variable encode_error_text : pyval -> pystr.

(** [open(path, "w", encoding="utf-8")]: the exception it raises, if any. *)
Variable open_write : pystr -> option exn.

(** [str(e)] of the [UnicodeEncodeError] that dumping the list raises. *)
Variable dump_error_text : list pyval -> pystr.

Record RWorld : Type := mk_RWorld {
  r_net : Net;
  r_rng : RNG;
  r_trace : list io_event
}.

(** The accumulators of [main] and the world. *)
Definition Machine : Type := (State * RWorld)%type.

Definition P (A : Type) : Type := Machine -> result A * Machine.

Definition pret {A : Type} (a : A) : P A := fun mach => (inr a, mach).

Definition praise {A : Type} (e : exn) : P A := fun mach => (inl e, mach).

Definition pbind {A B : Type} (c : P A) (k : A -> P B) : P B :=
  fun mach =>
    match c mach with
    | (inl e, mach') => (inl e, mach')
    | (inr a, mach') => k a mach'
    end.

Definition plift {A : Type} (r : result A) : P A := fun mach => (r, mach).

(** [try: c except Exception as e: h e]; what [c] did before it raised is
    done. *)
Definition ptry (c : P unit) (h : exn -> P unit) : P unit :=
  fun mach =>
    match c mach with
    | (inl e, mach') => h e mach'
    | (inr a, mach') => (inr a, mach')
    end.

Notation "'let!' x ':=' c 'in' k" := (pbind c (fun x => k))
  (at level 10, x name, c at level 100, k at level 200).
Notation "c '>>' k" := (pbind c (fun _ => k))
  (at level 62, right associativity).

Definition update (f : State -> State) : P unit :=
  fun mach => (inr tt, (f (fst mach), snd mach)).

Definition current : P State := fun mach => (inr (fst mach), mach).

Definition pemit (e : io_event) : P unit :=
  fun mach =>
    (inr tt,
     (fst mach,
      mk_RWorld (r_net (snd mach)) (r_rng (snd mach)) (r_trace (snd mach) ++ [e]))).

(** [print] of a line that carries the values [parts]. *)
Definition print (parts : list pyval) : P unit :=
  match List.find (fun v => negb (printable v)) parts with
  | Some v => praise (OtherException (encode_error_text v))
  | None => pret tt
  end.

(** [sleep_random]: the draw, the line printed, the pause. *)
Definition sleep_random_io (meetup_id : pyval) : P unit :=
  fun mach =>
    let '(s, g) := randint SLEEP_MIN_SECS SLEEP_MAX_SECS (r_rng (snd mach)) in
    (print (if truthy meetup_id then [meetup_id] else []) >> pemit (Slept s))
      (fst mach, mk_RWorld (r_net (snd mach)) g (r_trace (snd mach))).

(** [http_get_bytes]: the request object is built, then sent. *)
Definition http_get_bytes_io (url : pyval) : P bytes :=
  match make_request url with
  | Some e => praise e
  | None =>
      fun mach =>
        let '(r, n) := urlopen_read url (r_net (snd mach)) in
        (r, (fst mach,
             mk_RWorld n (r_rng (snd mach)) (r_trace (snd mach) ++ [Requested url])))
  end.

(** Lines 118 to 138. *)
Definition try_block_io (m meetup_id rss_url : pyval) : P unit :=
  let! xml_bytes := http_get_bytes_io rss_url in
  let! r := plift (rss_has_pubdate_year xml_bytes TARGET_YEAR) in
  let '(has_match, _, _) := r in
  if has_match then update (on_match m) >> print [meetup_id]
  else update (on_no_match m) >> print [meetup_id].

(** The body shared by the four [except] clauses. *)
Definition record_error (m meetup_id rss_url : pyval) (msg : pystr) : P unit :=
  update (on_error m meetup_id rss_url msg) >> print [meetup_id; PyStr msg].

(** Lines 140 to 170. *)
Definition handler_io (m meetup_id rss_url : pyval) (e : exn) : P unit :=
  match e with
  | HTTPError code reason =>
      record_error m meetup_id rss_url
        (u "HTTPError " ++ str_of_Z code ++ u ": " ++ reason)
  | URLError reason =>
      record_error m meetup_id rss_url (u "URLError: " ++ reason)
  | ParseError msg =>
      record_error m meetup_id rss_url (u "XML ParseError: " ++ msg)
  | _ =>
      record_error m meetup_id rss_url (exn_str e)
  end.

(** One turn of the loop, lines 100 to 177. *)
Definition loop_body_io (idx : nat) (m : pyval) : P unit :=
  let! meetup_id := plift (resolve_id idx m) in
  let! rss_url := plift (py_get m (u "meetupUrlRss")) in
  if negb (truthy rss_url) then
    update (on_missing_url m meetup_id) >>
    print [meetup_id]
  else
    print [meetup_id; rss_url] >>
    ptry (try_block_io m meetup_id rss_url) (handler_io m meetup_id rss_url) >>
    sleep_random_io meetup_id.

Fixpoint for_each_io (idx : nat) (meetups : list pyval) : P unit :=
  match meetups with
  | [] => pret tt
  | m :: rest => loop_body_io idx m >> for_each_io (S idx) rest
  end.

(** [bucket.sort(key=...)], in place. *)
Definition sort_in_place (get : State -> list pyval)
    (set : list pyval -> State -> State) : P unit :=
  let! st := current in
  let! sorted := plift (sort_by_id (get st)) in
  update (set sorted).

Definition set_with_events (l : list pyval) (st : State) : State :=
  mk_State l (without_events st) (errors st)
           (matched_count st) (no_match_count st) (error_count st) (processed st).

Definition set_without_events (l : list pyval) (st : State) : State :=
  mk_State (with_events st) l (errors st)
           (matched_count st) (no_match_count st) (error_count st) (processed st).

Definition set_errors (l : list pyval) (st : State) : State :=
  mk_State (with_events st) (without_events st) l
           (matched_count st) (no_match_count st) (error_count st) (processed st).

(** [with open(path, "w", encoding="utf-8") as f: json.dump(content, f, ...)] *)
Definition write_json_io (path : pystr) (content : list pyval) : P unit :=
  match open_write path with
  | Some e => praise e
  | None =>
      if dumpable (PyList content) then pemit (Wrote path content)
      else pemit (LeftPartial path content) >>
           praise (OtherException (dump_error_text content))
  end.

(** Lines 84 to 177, on the loaded value. *)
Definition classify_all_io (meetups : pyval) : P unit :=
  let! total := plift (py_len meetups) in
  let! rows := plift (py_iter meetups) in
  for_each_io 1 rows.

(** Lines 179 to 191. *)
Definition sort_and_write_io : P unit :=
  sort_in_place with_events set_with_events >>
  sort_in_place without_events set_without_events >>
  sort_in_place errors set_errors >>
  let! st := current in
  write_json_io OUT_WITH (with_events st) >>
  write_json_io OUT_WITHOUT (without_events st) >>
  write_json_io OUT_ERRORS (errors st).

(** [main], from a world in which nothing has happened yet; the result
    comes with the accumulators as the run left them. *)
Definition main_io (master_path : pystr) (w : RWorld) : result unit * Machine :=
  (let! meetups := plift (json_load master_path) in
   classify_all_io meetups >>
   sort_and_write_io) (init_State, w).

(** ** Vocabulary of the properties *)

Definition key_le (a b : pystr * pyval) : Prop := str_le (fst a) (fst b).

(** Every element is paired with its own key. *)
Definition keyed (L : list (pystr * pyval)) : Prop :=
  Forall (fun kx => sort_key (snd kx) = inr (fst kx)) L.

(** The keys of the list exist and do not decrease along it. *)
Definition sorted_by_id (l : list pyval) : Prop :=
  exists ks, keys_of l = inr ks /\ StronglySorted str_le ks.

(** The message the [except] clauses give to an exception. *)
Definition error_message (e : exn) : pystr :=
  match e with
  | HTTPError code reason => u "HTTPError " ++ str_of_Z code ++ u ": " ++ reason
  | URLError reason => u "URLError: " ++ reason
  | ParseError msg => u "XML ParseError: " ++ msg
  | _ => exn_str e
  end.

(** What the [try] block computes on the remote state [n]. *)
Definition attempt (rss_url : pyval) (n : Net) : result (bool * nat * nat) :=
  rbind (fst (urlopen_read rss_url n)) (fun xml_bytes =>
    rss_has_pubdate_year xml_bytes TARGET_YEAR).

(** Where a record goes, given what the [try] block computed. *)
Definition route (m meetup_id rss_url : pyval) (st : State)
    (r : result (bool * nat * nat)) : State :=
  match r with
  | inr (true, _, _) => on_match m st
  | inr (false, _, _) => on_no_match m st
  | inl e => on_error m meetup_id rss_url (error_message e) st
  end.

(** The classification of a record: the three terminal states of the loop. *)
Inductive outcome : Type := Matched | Unmatched | Errored.

Definition is_matched (o : outcome) : bool :=
  match o with Matched => true | _ => false end.
Definition not_matched (o : outcome) : bool := negb (is_matched o).
Definition is_unmatched (o : outcome) : bool :=
  match o with Unmatched => true | _ => false end.
Definition is_errored (o : outcome) : bool :=
  match o with Errored => true | _ => false end.

(** The outcome of record [m] when the remote side is in state [n]. *)
Definition outcome_of (m : pyval) (n : Net) : outcome :=
  match py_get m (u "meetupUrlRss") with
  | inr rss_url =>
      if truthy rss_url then
        match attempt rss_url n with
        | inr (true, _, _) => Matched
        | inr (false, _, _) => Unmatched
        | inl _ => Errored
        end
      else Errored
  | inl _ => Errored
  end.

(** The remote state after record [m]: a request was made if the record
    has a feed URL. *)
Definition net_after (m : pyval) (n : Net) : Net :=
  match py_get m (u "meetupUrlRss") with
  | inr rss_url => if truthy rss_url then snd (urlopen_read rss_url n) else n
  | inl _ => n
  end.

Fixpoint outcomes (ms : list pyval) (n : Net) : list outcome :=
  match ms with
  | [] => []
  | m :: rest => outcome_of m n :: outcomes rest (net_after m n)
  end.

(** The elements of [xs] whose outcome, at the same position of [os],
    satisfies [p]; in the order of [xs]. *)
Fixpoint pick {A : Type} (p : outcome -> bool) (os : list outcome) (xs : list A)
    : list A :=
  match os, xs with
  | o :: os', x :: xs' => if p o then x :: pick p os' xs' else pick p os' xs'
  | _, _ => []
  end.

(** The identifier an error entry carries. *)
Definition entry_id (entry : pyval) : result pyval := py_get entry (u "meetupID").

Definition id_at (im : nat * pyval) : result pyval := resolve_id (fst im) (snd im).

(** What one turn does to the accumulators, for a record of outcome [o]. *)
Definition step_ok (idx : nat) (m : pyval) (o : outcome) (st st' : State) : Prop :=
  with_events st' = with_events st ++ pick is_matched [o] [m] /\
  without_events st' = without_events st ++ pick not_matched [o] [m] /\
  map entry_id (errors st')
  = map entry_id (errors st) ++ map id_at (pick is_errored [o] [(idx, m)]) /\
  matched_count st' = matched_count st + List.length (pick is_matched [o] [m]) /\
  no_match_count st' = no_match_count st + List.length (pick is_unmatched [o] [m]) /\
  error_count st' = error_count st + List.length (pick is_errored [o] [m]) /\
  processed st' = S (processed st).

(** The item has a non-empty [pubDate] text: it is counted as seen. *)
Definition item_seen (item : Element) : bool :=
  match findtext (u "pubDate") item with
  | Some (_ :: _) => true
  | _ => false
  end.

(** Its date also parses. *)
Definition item_parsed (item : Element) : bool :=
  match findtext (u "pubDate") item with
  | Some (c :: s) =>
      match parsedate_to_datetime (c :: s) with
      | Some _ => true
      | None => false
      end
  | _ => false
  end.

(** And the parsed date is in the target year. *)
Definition item_matches (target_year : Z) (item : Element) : bool :=
  match findtext (u "pubDate") item with
  | Some (c :: s) =>
      match parsedate_to_datetime (c :: s) with
      | Some dt => Z.eqb (year dt) target_year
      | None => false
      end
  | _ => false
  end.

Definition count (p : Element -> bool) (items : list Element) : nat :=
  List.length (filter p items).

Definition is_write (e : event) : bool :=
  match e with EWrite _ _ => true | _ => false end.
Definition is_fetch (e : event) : bool :=
  match e with EFetch _ => true | _ => false end.

(** The files written, the pauses taken and the requests made in a trace. *)
Definition writes (t : list event) : list event := filter is_write t.
Definition fetches (t : list event) : list event := filter is_fetch t.

(** The three sorts of [main], in its order. *)
Definition sorted_buckets (st : State)
    : result (list pyval * list pyval * list pyval) :=
  rbind (sort_by_id (with_events st)) (fun a =>
  rbind (sort_by_id (without_events st)) (fun b =>
  rbind (sort_by_id (errors st)) (fun c => inr (a, b, c)))).

Definition three_writes (abc : list pyval * list pyval * list pyval) : list event :=
  let '(a, b, c) := abc in
  [EWrite OUT_WITH a; EWrite OUT_WITHOUT b; EWrite OUT_ERRORS c].


(** The value is a [str], or is falsy and so gives way to the next
    alternative of an [or]. *)
Definition str_or_falsy (v : pyval) : bool :=
  match v with
  | PyStr _ => true
  | _ => negb (truthy v)
  end.

Definition field (kvs : list (pystr * pyval)) (k : pystr) : pyval :=
  match assoc k kvs with
  | Some v => v
  | None => PyNone
  end.

Definition sortable (x : pyval) : Prop := exists k, sort_key x = inr k.

(** The record has no identifier: [meetupID] is absent or falsy. *)
Definition lacks_id (x : pyval) : bool :=
  match py_get x (u "meetupID") with
  | inr a => negb (truthy a)
  | inl _ => false
  end.

(** What a run leaves behind: how it ended and the files it wrote. *)
Definition observable (r : result unit * World) : result unit * list event :=
  (fst r, writes (trace (snd r))).

(** A decimal digit. *)
Definition is_digit (c : N) : bool := N.leb 48 c && N.leb c 57.

(** The tally printed after a record, and at the end of the run. *)
Definition tally_line (total : nat) (st : State) : pystr :=
  fmt_tally (processed st) total (matched_count st) (no_match_count st)
            (error_count st).

(** No element of the list has the tag. *)
Definition none_tagged (tag : pystr) (l : list Element) : bool :=
  forallb (fun c => negb (str_eqb (tag_of c) tag)) l.

(** The record has neither a [meetupID] nor a [meetupName]. *)
Definition anonymous (m : pyval) : bool :=
  match m with
  | PyDict kvs =>
      negb (truthy (field kvs (u "meetupID"))) &&
      negb (truthy (field kvs (u "meetupName")))
  | _ => false
  end.

(** The feed URL of a record, when it has a truthy one. *)
Definition feed_url (m : pyval) : option pyval :=
  match py_get m (u "meetupUrlRss") with
  | inr rss_url => if truthy rss_url then Some rss_url else None
  | inl _ => None
  end.


(** The effects of the loop on records [ms], the generator being in state
    [g]: for each record with a feed URL, a request and a pause. *)
Fixpoint loop_trace (ms : list pyval) (g : RNG) : list event :=
  match ms with
  | [] => []
  | m :: rest =>
      match feed_url m with
      | Some rss_url =>
          EFetch rss_url
          :: ESleep (fst (randint SLEEP_MIN_SECS SLEEP_MAX_SECS g))
          :: loop_trace rest (snd (randint SLEEP_MIN_SECS SLEEP_MAX_SECS g))
      | None => loop_trace rest g
      end
  end.

(** Requests and pauses alternate, each request followed at once by a
    pause within the bounds of the script. *)
Inductive paced : list event -> Prop :=
| paced_nil : paced []
| paced_cons (rss_url : pyval) (secs : Z) (t : list event) :
    (SLEEP_MIN_SECS <= secs <= SLEEP_MAX_SECS)%Z ->
    paced t ->
    paced (EFetch rss_url :: ESleep secs :: t).

(** The time spent in pauses. *)
Fixpoint total_sleep (t : list event) : Z :=
  match t with
  | [] => 0
  | ESleep secs :: t' => secs + total_sleep t'
  | _ :: t' => total_sleep t'
  end.

Definition is_dict (m : pyval) : bool :=
  match m with PyDict _ => true | _ => false end.

(** The element has key [k] in the sort. *)
Definition has_key (k : pystr) (x : pyval) : bool :=
  match sort_key x with
  | inr k' => str_eqb k' k
  | inl _ => false
  end.

(** The sort key of the element can be computed: it is an object whose
    [meetupID] is a string or falsy. *)
Definition id_sortable (x : pyval) : bool :=
  match x with
  | PyDict kvs => str_or_falsy (field kvs (u "meetupID"))
  | _ => false
  end.

(** The two forms of an entry of the error list. *)
Definition well_shaped_entry (entry : pyval) : Prop :=
  exists meetup_id,
    truthy meetup_id = true /\
    (entry = missing_url_entry meetup_id \/
     exists rss_url msg, truthy rss_url = true /\
                         entry = error_entry meetup_id rss_url msg).

(** The exception [print] raises for a value the console cannot encode. *)
Definition encode_error (v : pyval) : exn := OtherException (encode_error_text v).

(** What the [try] block computes on the remote state [n], the request
    object being built first. *)
Definition attempt_io (rss_url : pyval) (n : Net) : result (bool * nat * nat) :=
  match make_request rss_url with
  | Some e => inl e
  | None =>
      rbind (fst (urlopen_read rss_url n)) (fun xml_bytes =>
        rss_has_pubdate_year xml_bytes TARGET_YEAR)
  end.

(** The world after [http_get_bytes]: a request went out if [Request]
    took the URL. *)
Definition with_request (rss_url : pyval) (w : RWorld) : RWorld :=
  match make_request rss_url with
  | Some _ => w
  | None =>
      mk_RWorld (snd (urlopen_read rss_url (r_net w))) (r_rng w)
                (r_trace w ++ [Requested rss_url])
  end.

(** The world after [sleep_random]. *)
Definition with_pause (w : RWorld) : RWorld :=
  mk_RWorld (r_net w)
            (snd (randint SLEEP_MIN_SECS SLEEP_MAX_SECS (r_rng w)))
            (r_trace w ++ [Slept (fst (randint SLEEP_MIN_SECS SLEEP_MAX_SECS (r_rng w)))]).

(** The outcome of record [m] in the run with its console. *)
Definition outcome_io (m : pyval) (n : Net) : outcome :=
  match py_get m (u "meetupUrlRss") with
  | inr rss_url =>
      if truthy rss_url then
        match attempt_io rss_url n with
        | inr (true, _, _) => Matched
        | inr (false, _, _) => Unmatched
        | inl _ => Errored
        end
      else Errored
  | inl _ => Errored
  end.

Definition net_after_io (m : pyval) (n : Net) : Net :=
  match py_get m (u "meetupUrlRss") with
  | inr rss_url =>
      if truthy rss_url then
        match make_request rss_url with
        | Some _ => n
        | None => snd (urlopen_read rss_url n)
        end
      else n
  | inl _ => n
  end.

Fixpoint outcomes_io (ms : list pyval) (n : Net) : list outcome :=
  match ms with
  | [] => []
  | m :: rest => outcome_io m n :: outcomes_io rest (net_after_io m n)
  end.

(** The generator after the turn on record [m]: one draw if the record
    has a feed URL. *)
Definition rng_after_io (m : pyval) (g : RNG) : RNG :=
  match feed_url m with
  | Some _ => snd (randint SLEEP_MIN_SECS SLEEP_MAX_SECS g)
  | None => g
  end.

(** The effects of a turn that runs to its end: for a record with a feed
    URL, the request if [Request] took the URL, and the pause. *)
Definition turn_events (m : pyval) (g : RNG) : list io_event :=
  match feed_url m with
  | Some rss_url =>
      match make_request rss_url with
      | Some _ => []
      | None => [Requested rss_url]
      end ++ [Slept (fst (randint SLEEP_MIN_SECS SLEEP_MAX_SECS g))]
  | None => []
  end.

Fixpoint loop_trace_io (ms : list pyval) (g : RNG) : list io_event :=
  match ms with
  | [] => []
  | m :: rest => turn_events m g ++ loop_trace_io rest (rng_after_io m g)
  end.


Definition is_file_event (e : io_event) : bool :=
  match e with Wrote _ _ | LeftPartial _ _ => true | _ => false end.

Definition file_events (t : list io_event) : list io_event := filter is_file_event t.


(** The three files in the order of [main], each written if it can be
    opened and its content dumped: the effects, and the exception that
    stopped the writing, if any. *)
Fixpoint write_files (files : list (pystr * list pyval))
    : list io_event * option exn :=
  match files with
  | [] => ([], None)
  | (path, content) :: rest =>
      match open_write path with
      | Some e => ([], Some e)
      | None =>
          if dumpable (PyList content)
          then (Wrote path content :: fst (write_files rest),
                snd (write_files rest))
          else ([LeftPartial path content],
                Some (OtherException (dump_error_text content)))
      end
  end.

Definition output_files (st : State) : list (pystr * list pyval) :=
  [ (OUT_WITH, with_events st); (OUT_WITHOUT, without_events st);
    (OUT_ERRORS, errors st) ].

(** The trace of a loop: every request is followed at once by a pause,
    unless the run stops there; a pause may also stand alone, where
    [Request] refused the URL.  [ok] is what is known of the pauses. *)
Inductive turns (ok : Z -> Prop) : list io_event -> Prop :=
| turns_nil : turns ok []
| turns_stop (rss_url : pyval) : turns ok [Requested rss_url]
| turns_pause (secs : Z) (t : list io_event) :
    ok secs -> turns ok t -> turns ok (Slept secs :: t)
| turns_request (rss_url : pyval) (secs : Z) (t : list io_event) :
    ok secs -> turns ok t -> turns ok (Requested rss_url :: Slept secs :: t).



(** The identifier of a record or of an error entry, as the order of the
    output files takes it: the [meetupID] when it is a string, the empty
    string when there is none. *)
Definition identifier (x : pyval) : pystr :=
  match x with
  | PyDict kvs =>
      match field kvs (u "meetupID") with
      | PyStr s => s
      | _ => []
      end
  | _ => []
  end.

(** Ascending by identifier, compared without regard to case. *)
Definition ascending_by_identifier (l : list pyval) : Prop :=
  StronglySorted
    (fun x y => str_le (lower (identifier x)) (lower (identifier y))) l.

(** An element without identifier has only elements without identifier
    before it. *)
Definition without_identifier_first (l : list pyval) : Prop :=
  forall l1 x l2,
    l = l1 ++ x :: l2 -> identifier x = [] ->
    Forall (fun y => identifier y = []) l1.

(** The reading of C3 that takes an empty [pubDate] for a malformed one:
    whenever an item has a [pubDate] that does not parse, more dates are
    seen than parsed. *)
Definition unparsed_date_is_always_seen : Prop :=
  forall xml_bytes root channel item pub target_year,
    fromstring xml_bytes = inr root ->
    find (u "channel") root = Some channel ->
    In item (findall (u "item") channel) ->
    findtext (u "pubDate") item = Some pub ->
    parsedate_to_datetime pub = None ->
    exists has_match pubdates_seen pubdates_parsed,
      rss_has_pubdate_year xml_bytes target_year
      = inr (has_match, pubdates_seen, pubdates_parsed) /\
      pubdates_parsed < pubdates_seen.

(** The reading of the last sentence of C5, on the run with its console
    and files. *)
Definition only_a_failed_load_is_fatal : Prop :=
  forall master_path w e mach,
    main_io master_path w = (inl e, mach) ->
    json_load master_path = inl e /\ mach = (init_State, w).

(** The two levels side by side: the effect of the first level that an
    effect of the second stands for, and the world of the first level that
    a world of the second is seen as. *)
Definition plain_event (e : io_event) : event :=
  match e with
  | Requested url => EFetch url
  | Slept secs => ESleep secs
  | Wrote path content => EWrite path content
  | LeftPartial path content => EWrite path content
  end.

Definition plain (w : RWorld) : World :=
  mk_World (r_net w) (r_rng w) (map plain_event (r_trace w)).

(** ** Properties *)

(** *** The order on strings *)

Lemma str_leb_refl (a : pystr) : str_leb a a = true.
Proof.
  induction a as [|x a IH]; simpl; [reflexivity|].
  rewrite N.ltb_irrefl, N.eqb_refl. exact IH.
Qed.

Lemma str_leb_trans (a b c : pystr) :
  str_leb a b = true -> str_leb b c = true -> str_leb a c = true.
Proof.
  revert b c. induction a as [|x a IH]; intros [|y b] [|z c]; simpl; trivial;
    try discriminate.
  destruct (N.ltb_spec x y) as [Hxy|Hxy].
  - intros _. destruct (N.ltb_spec y z) as [Hyz|Hyz].
    + intros _. destruct (N.ltb_spec x z); [reflexivity|lia].
    + destruct (N.eqb_spec y z) as [->|]; [|discriminate].
      intros _. destruct (N.ltb_spec x z); [reflexivity|lia].
  - destruct (N.eqb_spec x y) as [->|]; [|discriminate].
    intros Hab. destruct (N.ltb_spec y z) as [Hyz|Hyz]; [reflexivity|].
    destruct (N.eqb_spec y z) as [->|]; [|discriminate].
    intros Hbc. eapply IH; eassumption.
Qed.

Lemma str_leb_total (a b : pystr) : str_leb a b = false -> str_leb b a = true.
Proof.
  revert b. induction a as [|x a IH]; intros [|y b]; simpl; trivial;
    try discriminate.
  destruct (N.ltb_spec x y) as [Hxy|Hxy]; [discriminate|].
  destruct (N.eqb_spec x y) as [->|Hne].
  - rewrite N.ltb_irrefl, N.eqb_refl. apply IH.
  - intros _. destruct (N.ltb_spec y x); [reflexivity|lia].
Qed.

Lemma str_leb_nil_r (a : pystr) : str_leb a [] = true -> a = [].
Proof. destruct a; [reflexivity|discriminate]. Qed.

Lemma str_eqb_eq (a b : pystr) : str_eqb a b = true <-> a = b.
Proof.
  revert b. induction a as [|x a IH]; intros [|y b]; simpl; split;
    try discriminate; try reflexivity.
  - intros H. apply andb_prop in H as [Hx Ha].
    apply N.eqb_eq in Hx. apply IH in Ha. congruence.
  - intros H. injection H as -> ->. rewrite N.eqb_refl. now apply IH.
Qed.

(** *** The sort *)

Lemma insert_keyed_perm (kx : pystr * pyval) (l : list (pystr * pyval)) :
  Permutation (insert_keyed kx l) (kx :: l).
Proof.
  induction l as [|ky l IH]; simpl; [apply Permutation_refl|].
  destruct (str_leb (fst kx) (fst ky)); [apply Permutation_refl|].
  eapply perm_trans; [apply perm_skip, IH | apply perm_swap].
Qed.

Lemma stable_sort_perm (l : list (pystr * pyval)) : Permutation (stable_sort l) l.
Proof.
  induction l as [|kx l IH]; simpl; [constructor|].
  eapply perm_trans; [apply insert_keyed_perm | now apply perm_skip].
Qed.

Lemma insert_keyed_sorted (kx : pystr * pyval) (l : list (pystr * pyval)) :
  StronglySorted key_le l -> StronglySorted key_le (insert_keyed kx l).
Proof.
  induction 1 as [|ky l Hs IH Hall]; simpl.
  - constructor; constructor.
  - destruct (str_leb (fst kx) (fst ky)) eqn:E.
    + constructor; [constructor; assumption|].
      constructor; [exact E|].
      eapply Forall_impl; [|exact Hall].
      intros kz Hz. unfold key_le, str_le in *.
      eapply str_leb_trans; eassumption.
    + constructor; [exact IH|].
      eapply Permutation_Forall;
        [apply Permutation_sym, insert_keyed_perm|].
      constructor; [|exact Hall].
      apply str_leb_total, E.
Qed.

Lemma stable_sort_sorted (l : list (pystr * pyval)) :
  StronglySorted key_le (stable_sort l).
Proof.
  induction l as [|kx l IH]; simpl; [constructor|].
  now apply insert_keyed_sorted.
Qed.

Lemma sorted_keys (L : list (pystr * pyval)) :
  StronglySorted key_le L -> StronglySorted str_le (map fst L).
Proof.
  induction 1 as [|kx L Hs IH Hall]; simpl; constructor; [exact IH|].
  rewrite Forall_map. exact Hall.
Qed.

Lemma keys_of_combine (l : list pyval) (ks : list pystr) :
  keys_of l = inr ks ->
  keyed (combine ks l) /\ map snd (combine ks l) = l.
Proof.
  revert ks. induction l as [|x l IH]; simpl; intros ks H.
  - injection H as <-. split; [constructor|reflexivity].
  - destruct (sort_key x) as [e|k] eqn:Ek; simpl in H; [discriminate|].
    destruct (keys_of l) as [e|ks'] eqn:El; simpl in H; [discriminate|].
    injection H as <-. destruct (IH ks' eq_refl) as [Hk Hm]. simpl. split.
    + constructor; [exact Ek|exact Hk].
    + now rewrite Hm.
Qed.

Lemma keys_of_keyed (L : list (pystr * pyval)) :
  keyed L -> keys_of (map snd L) = inr (map fst L).
Proof.
  induction 1 as [|kx L Hk _ IH]; simpl; [reflexivity|].
  now rewrite Hk, IH.
Qed.

Lemma sort_by_id_spec (l l' : list pyval) :
  sort_by_id l = inr l' -> Permutation l' l /\ sorted_by_id l'.
Proof.
  unfold sort_by_id. destruct (keys_of l) as [e|ks] eqn:Ek; simpl; [discriminate|].
  intros H. injection H as <-.
  destruct (keys_of_combine l ks Ek) as [Hk Hm]. split.
  - rewrite <- Hm at 2. apply Permutation_map, stable_sort_perm.
  - exists (map fst (stable_sort (combine ks l))). split.
    + apply keys_of_keyed. unfold keyed.
      eapply Permutation_Forall; [apply Permutation_sym, stable_sort_perm|exact Hk].
    + apply sorted_keys, stable_sort_sorted.
Qed.

(** *** One turn of the loop *)

Lemma handler_spec (m meetup_id rss_url : pyval) (st : State) (e : exn) (w : World) :
  handler m meetup_id rss_url st e w =
  (inr (on_error m meetup_id rss_url (error_message e) st), w).
Proof. destruct e; reflexivity. Qed.

Lemma try_block_spec (m meetup_id rss_url : pyval) (st : State) (w : World) :
  try_except (fetch_and_classify m rss_url st) (handler m meetup_id rss_url st) w =
  (inr (route m meetup_id rss_url st (attempt rss_url (net w))),
   mk_World (snd (urlopen_read rss_url (net w))) (rng w)
            (trace w ++ [EFetch rss_url])).
Proof.
  unfold try_except, fetch_and_classify, bind, http_get_bytes, lift, attempt.
  destruct (urlopen_read rss_url (net w)) as [[e|xml_bytes] n]; simpl.
  - now rewrite handler_spec.
  - destruct (rss_has_pubdate_year xml_bytes TARGET_YEAR) as [e|[[[] seen] parsed]];
      simpl; try reflexivity.
    now rewrite handler_spec.
Qed.

Lemma loop_body_missing_url (idx : nat) (m meetup_id rss_url : pyval)
    (st : State) (w : World) :
  resolve_id idx m = inr meetup_id ->
  py_get m (u "meetupUrlRss") = inr rss_url ->
  truthy rss_url = false ->
  loop_body idx m st w = (inr (on_missing_url m meetup_id st), w).
Proof.
  intros Hid Hurl Hf. unfold loop_body, bind, lift.
  rewrite Hid, Hurl, Hf. reflexivity.
Qed.

Lemma loop_body_with_url (idx : nat) (m meetup_id rss_url : pyval)
    (st : State) (w : World) :
  resolve_id idx m = inr meetup_id ->
  py_get m (u "meetupUrlRss") = inr rss_url ->
  truthy rss_url = true ->
  loop_body idx m st w =
  (inr (route m meetup_id rss_url st (attempt rss_url (net w))),
   mk_World (snd (urlopen_read rss_url (net w)))
            (snd (randint SLEEP_MIN_SECS SLEEP_MAX_SECS (rng w)))
            (trace w ++ [EFetch rss_url;
                         ESleep (fst (randint SLEEP_MIN_SECS SLEEP_MAX_SECS (rng w)))])).
Proof.
  intros Hid Hurl Ht. unfold loop_body.
  unfold bind at 1. unfold lift at 1. rewrite Hid.
  unfold bind at 1. unfold lift at 1. rewrite Hurl, Ht. cbn [negb].
  unfold bind at 1. rewrite try_block_spec.
  unfold bind, sleep_random, ret. simpl.
  destruct (randint SLEEP_MIN_SECS SLEEP_MAX_SECS (rng w)) as [s g]. simpl.
  now rewrite <- app_assoc.
Qed.

Lemma loop_body_not_dict (idx : nat) (m : pyval) (st : State) (w : World) :
  (forall kvs, m <> PyDict kvs) ->
  loop_body idx m st w = (inl (no_attribute m "get"), w).
Proof.
  intros Hm. unfold loop_body, bind, lift, resolve_id.
  destruct m; try reflexivity. now destruct (Hm kvs).
Qed.

Lemma py_get_dict (kvs : list (pystr * pyval)) (k : pystr) :
  exists v, py_get (PyDict kvs) k = inr v.
Proof. simpl. destruct (assoc k kvs); eauto. Qed.

Lemma resolve_id_dict (idx : nat) (kvs : list (pystr * pyval)) :
  exists meetup_id,
    resolve_id idx (PyDict kvs) = inr meetup_id /\ truthy meetup_id = true.
Proof.
  unfold resolve_id.
  destruct (py_get_dict kvs (u "meetupID")) as [a ->]. cbn [rbind].
  destruct (truthy a) eqn:Ea; [eauto|].
  destruct (py_get_dict kvs (u "meetupName")) as [b ->]. cbn [rbind].
  destruct (truthy b) eqn:Eb; [eauto|].
  eexists. split; reflexivity.
Qed.

(** *** The whole loop *)

Lemma outcomes_length (ms : list pyval) (n : Net) :
  List.length (outcomes ms n) = List.length ms.
Proof.
  revert n. induction ms as [|m ms IH]; intros n; simpl; [reflexivity|].
  now rewrite IH.
Qed.

Lemma pick_partition_length {A : Type} (p : outcome -> bool) (os : list outcome)
    (xs : list A) :
  List.length os = List.length xs ->
  List.length (pick p os xs) + List.length (pick (fun o => negb (p o)) os xs)
  = List.length xs.
Proof.
  revert xs. induction os as [|o os IH]; intros [|x xs]; simpl; try discriminate;
    [reflexivity|].
  intros H. injection H as H. specialize (IH xs H).
  destruct (p o); simpl; lia.
Qed.

Lemma pick_partition_perm {A : Type} (p : outcome -> bool) (os : list outcome)
    (xs : list A) :
  List.length os = List.length xs ->
  Permutation (pick p os xs ++ pick (fun o => negb (p o)) os xs) xs.
Proof.
  revert xs. induction os as [|o os IH]; intros [|x xs]; simpl; try discriminate;
    [constructor|].
  intros H. injection H as H. specialize (IH xs H).
  destruct (p o); simpl.
  - now apply perm_skip.
  - apply Permutation_sym, Permutation_cons_app, Permutation_sym, IH.
Qed.


Lemma pick_not_matched_length {A : Type} (os : list outcome) (xs : list A) :
  List.length (pick not_matched os xs)
  = List.length (pick is_unmatched os xs) + List.length (pick is_errored os xs).
Proof.
  revert xs. induction os as [|o os IH]; intros [|x xs]; simpl; try reflexivity.
  specialize (IH xs). destruct o; simpl; lia.
Qed.

Lemma pick_combine_length {A B : Type} (p : outcome -> bool) (os : list outcome)
    (xs : list A) (ys : list B) :
  List.length xs = List.length ys ->
  List.length (pick p os (combine xs ys)) = List.length (pick p os ys).
Proof.
  revert xs ys. induction os as [|o os IH]; intros [|x xs] [|y ys]; simpl;
    try discriminate; try reflexivity.
  intros H. injection H as H. destruct (p o); simpl; now rewrite IH.
Qed.

Lemma loop_body_dict (idx : nat) (kvs : list (pystr * pyval)) (st : State) (w : World) :
  exists st' w',
    loop_body idx (PyDict kvs) st w = (inr st', w') /\
    net w' = net_after (PyDict kvs) (net w) /\
    step_ok idx (PyDict kvs) (outcome_of (PyDict kvs) (net w)) st st'.
Proof.
  destruct (resolve_id_dict idx kvs) as (meetup_id & Hid & _).
  destruct (py_get_dict kvs (u "meetupUrlRss")) as [rss_url Hurl].
  unfold outcome_of, net_after. rewrite Hurl.
  destruct (truthy rss_url) eqn:Ht.
  - rewrite (loop_body_with_url idx _ meetup_id rss_url st w Hid Hurl Ht).
    do 2 eexists. split; [reflexivity|]. split; [reflexivity|].
    unfold step_ok, id_at.
    destruct (attempt rss_url (net w)) as [e|[[[] seen] parsed]]; simpl;
      rewrite ?app_nil_r, ?map_app, ?Hid; simpl; repeat split; try lia.
  - rewrite (loop_body_missing_url idx _ meetup_id rss_url st w Hid Hurl Ht).
    do 2 eexists. split; [reflexivity|]. split; [reflexivity|].
    unfold step_ok, id_at. simpl.
    rewrite ?app_nil_r, ?map_app, ?Hid. simpl. repeat split; try lia.
Qed.

Lemma pick_cons {A : Type} (p : outcome -> bool) (o : outcome) (os : list outcome)
    (x : A) (xs : list A) :
  pick p (o :: os) (x :: xs) = pick p [o] [x] ++ pick p os xs.
Proof. simpl. now destruct (p o). Qed.

Lemma for_each_dicts (records : list (list (pystr * pyval))) :
  forall (idx : nat) (st : State) (w : World),
  let ms := map PyDict records in
  let os := outcomes ms (net w) in
  exists st' w',
    for_each idx ms st w = (inr st', w') /\
    with_events st' = with_events st ++ pick is_matched os ms /\
    without_events st' = without_events st ++ pick not_matched os ms /\
    map entry_id (errors st')
    = map entry_id (errors st)
      ++ map id_at (pick is_errored os (combine (seq idx (List.length ms)) ms)) /\
    matched_count st' = matched_count st + List.length (pick is_matched os ms) /\
    no_match_count st' = no_match_count st + List.length (pick is_unmatched os ms) /\
    error_count st' = error_count st + List.length (pick is_errored os ms) /\
    processed st' = processed st + List.length ms.
Proof.
  induction records as [|kvs records IH]; intros idx st w; cbn zeta.
  - exists st, w. simpl. rewrite !app_nil_r. repeat split; lia.
  - cbn [map outcomes for_each List.length seq combine]. unfold bind at 1.
    destruct (loop_body_dict idx kvs st w)
      as (st1 & w1 & -> & Hnet & Hw & Hwo & He & Hmc & Hnc & Hec & Hp).
    destruct (IH (S idx) st1 w1)
      as (st2 & w2 & -> & Hw2 & Hwo2 & He2 & Hmc2 & Hnc2 & Hec2 & Hp2).
    rewrite <- Hnet.
    exists st2, w2. split; [reflexivity|].
    rewrite !(pick_cons _ (outcome_of (PyDict kvs) (net w))
                (outcomes (map PyDict records) (net w1))).
    rewrite Hw2, Hwo2, He2, Hmc2, Hnc2, Hec2, Hp2.
    rewrite Hw, Hwo, He, Hmc, Hnc, Hec, Hp.
    rewrite !map_app, !length_app, <- !app_assoc.
    repeat split; lia.
Qed.

(** *** The classifier *)

Lemma item_step_spec (target_year : Z) (item : Element) (h : bool) (s p : nat) :
  item_step target_year item (h, s, p)
  = (h || item_matches target_year item,
     s + count item_seen [item], p + count item_parsed [item]).
Proof.
  unfold item_step, item_matches, item_seen, item_parsed, count. simpl.
  destruct (findtext (u "pubDate") item) as [[|c t]|];
    rewrite ?orb_false_r, ?Nat.add_0_r; try reflexivity.
  destruct (parsedate_to_datetime (c :: t)) as [dt|]; simpl.
  - destruct (Z.eqb (year dt) target_year);
      rewrite ?orb_true_r, ?orb_false_r, !Nat.add_1_r; reflexivity.
  - now rewrite orb_false_r, Nat.add_0_r, Nat.add_1_r.
Qed.

Lemma scan_items_spec (target_year : Z) (items : list Element) :
  forall (h : bool) (s p : nat),
  scan_items target_year items (h, s, p)
  = (h || existsb (item_matches target_year) items,
     s + count item_seen items, p + count item_parsed items).
Proof.
  induction items as [|item items IH]; intros h s p.
  - simpl. unfold count. simpl. now rewrite orb_false_r, !Nat.add_0_r.
  - cbn [scan_items existsb]. rewrite item_step_spec, IH.
    unfold count. simpl.
    rewrite <- orb_assoc.
    destruct (item_seen item), (item_parsed item); simpl;
      repeat (f_equal; try lia).
Qed.

Lemma parsed_le_seen (items : list Element) :
  count item_parsed items <= count item_seen items.
Proof.
  unfold count. induction items as [|item items IH]; simpl; [lia|].
  unfold item_parsed at 1, item_seen at 1.
  destruct (findtext (u "pubDate") item) as [[|c t]|]; try exact IH.
  destruct (parsedate_to_datetime (c :: t)); simpl; lia.
Qed.

Lemma parsed_lt_seen (items : list Element) (item : Element) :
  In item items -> item_seen item = true -> item_parsed item = false ->
  count item_parsed items < count item_seen items.
Proof.
  unfold count. induction items as [|x items IH]; simpl; [tauto|].
  intros [->|Hin] Hs Hp.
  - rewrite Hs, Hp. simpl. pose proof (parsed_le_seen items). unfold count in *. lia.
  - specialize (IH Hin Hs Hp).
    assert (Hx : item_parsed x = true -> item_seen x = true).
    { unfold item_parsed, item_seen.
      destruct (findtext (u "pubDate") x) as [[|c t]|]; congruence. }
    destruct (item_parsed x); [rewrite Hx by reflexivity|destruct (item_seen x)];
      simpl; lia.
Qed.

Lemma rss_with_channel (xml_bytes : bytes) (root channel : Element) (target_year : Z) :
  fromstring xml_bytes = inr root ->
  find (u "channel") root = Some channel ->
  rss_has_pubdate_year xml_bytes target_year
  = inr (existsb (item_matches target_year) (findall (u "item") channel),
         count item_seen (findall (u "item") channel),
         count item_parsed (findall (u "item") channel)).
Proof.
  intros Hroot Hch. unfold rss_has_pubdate_year. rewrite Hroot. cbn [rbind].
  rewrite Hch, scan_items_spec. reflexivity.
Qed.

Lemma rss_without_channel (xml_bytes : bytes) (root : Element) (target_year : Z) :
  fromstring xml_bytes = inr root ->
  find (u "channel") root = None ->
  rss_has_pubdate_year xml_bytes target_year = inr (false, 0, 0).
Proof.
  intros Hroot Hch. unfold rss_has_pubdate_year. rewrite Hroot. cbn [rbind].
  now rewrite Hch.
Qed.

Lemma item_matches_iff (target_year : Z) (item : Element) :
  parsedate_to_datetime [] = None ->
  item_matches target_year item = true <->
  exists pub dt,
    findtext (u "pubDate") item = Some pub /\
    parsedate_to_datetime pub = Some dt /\ year dt = target_year.
Proof.
  intros Hempty. unfold item_matches. split.
  - destruct (findtext (u "pubDate") item) as [[|c t]|]; try discriminate.
    destruct (parsedate_to_datetime (c :: t)) as [dt|] eqn:E; [|discriminate].
    intros H. apply Z.eqb_eq in H. eauto.
  - intros (pub & dt & -> & Hp & Hy).
    destruct pub as [|c t]; [congruence|].
    rewrite Hp. now apply Z.eqb_eq.
Qed.

(** C2.  On a document that parses, the classifier raises nothing.  When
    the root has no [channel] child the result is [(False, 0, 0)].  In every
    case [has_match] is true exactly when the channel has an item whose
    [pubDate] text parses to a date in the target year.  ([parsedate_to_datetime]
    raises on the empty string; the loop does not call it there.) *)
Theorem C2_match_iff_item_in_target_year
    (xml_bytes : bytes) (root : Element) (target_year : Z) :
  parsedate_to_datetime [] = None ->
  fromstring xml_bytes = inr root ->
  (find (u "channel") root = None ->
   rss_has_pubdate_year xml_bytes target_year = inr (false, 0, 0)) /\
  exists has_match pubdates_seen pubdates_parsed,
    rss_has_pubdate_year xml_bytes target_year
    = inr (has_match, pubdates_seen, pubdates_parsed) /\
    (has_match = true <->
     exists channel item pub dt,
       find (u "channel") root = Some channel /\
       In item (findall (u "item") channel) /\
       findtext (u "pubDate") item = Some pub /\
       parsedate_to_datetime pub = Some dt /\
       year dt = target_year).
Proof.
  intros Hempty Hroot. split; [intros Hnc; exact (rss_without_channel _ _ _ Hroot Hnc)|].
  destruct (find (u "channel") root) as [channel|] eqn:Hch.
  - do 3 eexists. split; [exact (rss_with_channel _ _ _ _ Hroot Hch)|].
    rewrite existsb_exists. split.
    + intros (item & Hin & Hm).
      apply (item_matches_iff _ _ Hempty) in Hm as (pub & dt & Hp & Hd & Hy).
      exists channel, item, pub, dt. auto.
    + intros (channel' & item & pub & dt & Hc & Hin & Hp & Hd & Hy).
      injection Hc as <-. exists item. split; [exact Hin|].
      apply (item_matches_iff _ _ Hempty). eauto.
  - exists false, 0, 0. split; [exact (rss_without_channel _ _ _ Hroot Hch)|].
    split; [discriminate|].
    intros (channel & _ & _ & _ & Hc & _). discriminate.
Qed.

(** C3.  A feed with an item whose [pubDate] is present, non-empty and does
    not parse: the classifier returns normally, the seen count exceeds the
    parsed count, that item is no match, and [has_match] is decided by the
    other items alone.  When none of the other items matches, a record whose
    fetch returned this feed is appended to [without_events] and nothing is
    added to the other two lists. *)
Theorem C3_malformed_date_is_seen_not_parsed
    (xml_bytes : bytes) (root channel item : Element) (pub : pystr)
    (target_year : Z) :
  fromstring xml_bytes = inr root ->
  find (u "channel") root = Some channel ->
  In item (findall (u "item") channel) ->
  findtext (u "pubDate") item = Some pub ->
  pub <> [] ->
  parsedate_to_datetime pub = None ->
  item_matches target_year item = false /\
  exists has_match pubdates_seen pubdates_parsed,
    rss_has_pubdate_year xml_bytes target_year
    = inr (has_match, pubdates_seen, pubdates_parsed) /\
    pubdates_parsed < pubdates_seen /\
    (has_match = true <->
     exists other, In other (findall (u "item") channel) /\ other <> item /\
                   item_matches target_year other = true) /\
    ((forall other, In other (findall (u "item") channel) -> other <> item ->
                    item_matches target_year other = false) ->
     has_match = false /\
     (target_year = TARGET_YEAR ->
      forall idx m meetup_id rss_url st w,
        resolve_id idx m = inr meetup_id ->
        py_get m (u "meetupUrlRss") = inr rss_url ->
        truthy rss_url = true ->
        fst (urlopen_read rss_url (net w)) = inr xml_bytes ->
        exists st' w',
          loop_body idx m st w = (inr st', w') /\
          without_events st' = without_events st ++ [m] /\
          with_events st' = with_events st /\
          errors st' = errors st)).
Proof.
  intros Hroot Hch Hin Hpub Hne Hparse.
  assert (Hseen : item_seen item = true).
  { unfold item_seen. rewrite Hpub. destruct pub; congruence. }
  assert (Hnp : item_parsed item = false).
  { unfold item_parsed. rewrite Hpub. destruct pub; [congruence|]. now rewrite Hparse. }
  assert (Hnm : item_matches target_year item = false).
  { unfold item_matches. rewrite Hpub. destruct pub; [congruence|]. now rewrite Hparse. }
  split; [exact Hnm|].
  do 3 eexists. split; [exact (rss_with_channel _ _ _ _ Hroot Hch)|].
  split; [now apply (parsed_lt_seen _ item)|].
  assert (Hiff : existsb (item_matches target_year) (findall (u "item") channel) = true <->
                 exists other, In other (findall (u "item") channel) /\ other <> item /\
                               item_matches target_year other = true).
  { rewrite existsb_exists. split.
    - intros (other & Ho & Hm). exists other. repeat split; try assumption.
      intros ->. congruence.
    - intros (other & Ho & _ & Hm). eauto. }
  split; [exact Hiff|].
  intros Hnone.
  assert (Hfalse : existsb (item_matches target_year) (findall (u "item") channel) = false).
  { apply not_true_is_false. intros E.
    apply Hiff in E as (other & Ho & Hd & Hm).
    rewrite (Hnone other Ho Hd) in Hm. discriminate. }
  split; [exact Hfalse|].
  intros -> idx m meetup_id rss_url st w Hid Hurl Ht Hfetch.
  rewrite (loop_body_with_url idx m meetup_id rss_url st w Hid Hurl Ht).
  do 2 eexists. split; [reflexivity|].
  unfold attempt. rewrite Hfetch. cbn [rbind].
  rewrite (rss_with_channel _ _ _ _ Hroot Hch), Hfalse. simpl. auto.
Qed.

(** C10.  An item whose [pubDate] element is there but has no text, or the
    empty text, goes through the loop like an item [bare] that has no
    [pubDate] element: the counters are left as they were, the item is
    neither seen nor parsed nor a match, whatever the date parser would make
    of the empty string, and the scan of a channel gives the same result with
    the item, with [bare] in its place, or without it. *)
Theorem C10_empty_pubdate_is_like_no_pubdate
    (item bare date : Element) (target_year : Z) :
  find (u "pubDate") item = Some date ->
  text_of date = None \/ text_of date = Some [] ->
  find (u "pubDate") bare = None ->
  (forall acc, item_step target_year item acc = acc /\
               item_step target_year bare acc = acc) /\
  item_seen item = false /\
  item_parsed item = false /\
  item_matches target_year item = false /\
  (forall before after acc,
     scan_items target_year (before ++ item :: after) acc
     = scan_items target_year (before ++ after) acc /\
     scan_items target_year (before ++ bare :: after) acc
     = scan_items target_year (before ++ after) acc).
Proof.
  intros Hdate Htext Hbare.
  assert (Hitem : findtext (u "pubDate") item = Some []).
  { unfold findtext. rewrite Hdate. now destruct Htext as [-> | ->]. }
  assert (Hb : findtext (u "pubDate") bare = None).
  { unfold findtext. now rewrite Hbare. }
  assert (Hstep : forall acc, item_step target_year item acc = acc /\
                              item_step target_year bare acc = acc).
  { intros [[h s] p]. unfold item_step. now rewrite Hitem, Hb. }
  split; [exact Hstep|].
  unfold item_seen, item_parsed, item_matches. rewrite Hitem.
  repeat split; try reflexivity.
  - revert acc. induction before as [|x before IH]; intros acc; simpl.
    + now rewrite (proj1 (Hstep acc)).
    + apply IH.
  - revert acc. induction before as [|x before IH]; intros acc; simpl.
    + now rewrite (proj2 (Hstep acc)).
    + apply IH.
Qed.

(** *** Sorting and writing *)

Lemma sort_and_write_spec (st : State) (w : World) :
  sort_and_write st w =
  match sorted_buckets st with
  | inl e => (inl e, w)
  | inr abc => (inr tt, mk_World (net w) (rng w) (trace w ++ three_writes abc))
  end.
Proof.
  unfold sort_and_write, sorted_buckets, bind, lift, write_json, emit.
  destruct (sort_by_id (with_events st)) as [e|a]; [reflexivity|].
  destruct (sort_by_id (without_events st)) as [e|b]; [reflexivity|].
  destruct (sort_by_id (errors st)) as [e|c]; [reflexivity|].
  cbn. now rewrite <- !app_assoc.
Qed.

Lemma main_ok_inv (master_path : pystr) (w w' : World) :
  main master_path w = (inr tt, w') ->
  exists meetups st w1 abc,
    json_load master_path = inr meetups /\
    classify_all meetups w = (inr st, w1) /\
    sorted_buckets st = inr abc /\
    w' = mk_World (net w1) (rng w1) (trace w1 ++ three_writes abc).
Proof.
  unfold main, bind, lift.
  destruct (json_load master_path) as [e|meetups]; [discriminate|].
  destruct (classify_all meetups w) as [[e|st] w1] eqn:Hc; [discriminate|].
  rewrite sort_and_write_spec.
  destruct (sorted_buckets st) as [e|abc] eqn:Hs; [discriminate|].
  intros H. injection H as <-. exists meetups, st, w1, abc. auto.
Qed.

Lemma classify_all_inv (meetups : pyval) (st : State) (w w1 : World) :
  classify_all meetups w = (inr st, w1) ->
  exists rows, py_iter meetups = inr rows /\ for_each 1 rows init_State w = (inr st, w1).
Proof.
  unfold classify_all, bind, lift.
  destruct (py_len meetups) as [e|total]; [discriminate|].
  destruct (py_iter meetups) as [e|rows] eqn:Hi; [discriminate|].
  intros H. exists rows. auto.
Qed.

Lemma loop_body_writes (idx : nat) (m : pyval) (st : State) (w : World) :
  writes (trace (snd (loop_body idx m st w))) = writes (trace w).
Proof.
  destruct m as [| | | | | |kvs];
    try (rewrite loop_body_not_dict by (intros kvs; discriminate); reflexivity).
  destruct (resolve_id_dict idx kvs) as (meetup_id & Hid & _).
  destruct (py_get_dict kvs (u "meetupUrlRss")) as [rss_url Hurl].
  destruct (truthy rss_url) eqn:Ht.
  - rewrite (loop_body_with_url idx _ meetup_id rss_url st w Hid Hurl Ht). simpl.
    unfold writes. rewrite filter_app. simpl. apply app_nil_r.
  - now rewrite (loop_body_missing_url idx _ meetup_id rss_url st w Hid Hurl Ht).
Qed.

Lemma for_each_writes (ms : list pyval) :
  forall (idx : nat) (st : State) (w : World),
  writes (trace (snd (for_each idx ms st w))) = writes (trace w).
Proof.
  induction ms as [|m ms IH]; intros idx st w; [reflexivity|].
  cbn [for_each]. unfold bind.
  pose proof (loop_body_writes idx m st w) as Hb.
  destruct (loop_body idx m st w) as [[e|st1] w1]; simpl in Hb |- *.
  - exact Hb.
  - now rewrite IH.
Qed.

Lemma for_each_ok_dicts (ms : list pyval) :
  forall (idx : nat) (st st' : State) (w w' : World),
  for_each idx ms st w = (inr st', w') ->
  exists records, ms = map PyDict records.
Proof.
  induction ms as [|m ms IH]; intros idx st st' w w' H.
  - now exists [].
  - cbn [for_each] in H. unfold bind in H.
    destruct m as [| | | | | |kvs];
      try (rewrite loop_body_not_dict in H by (intros kvs; discriminate);
           discriminate).
    destruct (loop_body idx (PyDict kvs) st w) as [[e|st1] w1]; [discriminate|].
    destruct (IH _ _ _ _ _ H) as [records ->].
    now exists (kvs :: records).
Qed.

(** *** Records without a feed URL *)

(** C4.  A record whose [meetupUrlRss] is absent or falsy: the turn of the
    loop appends the record to [without_events], appends to [errors] the
    entry made of the resolved identifier and the message
    ["missing meetupUrlRss"], adds one to [error_count], and leaves the world
    as it was: no request is made (and nothing else happens). *)
Theorem C4_missing_url_is_unmatched_and_errored
    (idx : nat) (kvs : list (pystr * pyval)) (rss_url : pyval)
    (st : State) (w : World) :
  py_get (PyDict kvs) (u "meetupUrlRss") = inr rss_url ->
  truthy rss_url = false ->
  exists meetup_id st',
    resolve_id idx (PyDict kvs) = inr meetup_id /\
    loop_body idx (PyDict kvs) st w = (inr st', w) /\
    without_events st' = without_events st ++ [PyDict kvs] /\
    errors st'
    = errors st ++ [PyDict [ (u "meetupID", meetup_id);
                             (u "error", PyStr (u "missing meetupUrlRss")) ]] /\
    error_count st' = S (error_count st) /\
    with_events st' = with_events st.
Proof.
  intros Hurl Hf.
  destruct (resolve_id_dict idx kvs) as (meetup_id & Hid & _).
  exists meetup_id, (on_missing_url (PyDict kvs) meetup_id st).
  split; [exact Hid|].
  split; [exact (loop_body_missing_url idx _ meetup_id rss_url st w Hid Hurl Hf)|].
  repeat split.
Qed.

(** *** The pause *)


(** *** Failures *)

Lemma py_get_field (kvs : list (pystr * pyval)) (k : pystr) :
  py_get (PyDict kvs) k = inr (field kvs k).
Proof. unfold py_get, field. now destruct (assoc k kvs). Qed.

Lemma str_or_falsy_truthy (v : pyval) :
  str_or_falsy v = true -> truthy v = true -> exists s, v = PyStr s.
Proof.
  destruct v; [| | | |eauto| |]; unfold str_or_falsy; intros H1 H2;
    rewrite H2 in H1; discriminate.
Qed.

Lemma keys_of_total (l : list pyval) :
  Forall sortable l -> exists l', sort_by_id l = inr l'.
Proof.
  intros H. unfold sort_by_id.
  assert (Hk : exists ks, keys_of l = inr ks).
  { induction H as [|x l [k Hx] _ [ks IH]]; simpl; [eauto|].
    rewrite Hx, IH. simpl. eauto. }
  destruct Hk as [ks ->]. simpl. eauto.
Qed.

Lemma classify_all_writes (meetups : pyval) (w : World) :
  writes (trace (snd (classify_all meetups w))) = writes (trace w).
Proof.
  unfold classify_all, bind, lift.
  destruct (py_len meetups) as [e|total]; [reflexivity|].
  destruct (py_iter meetups) as [e|rows]; [reflexivity|].
  apply for_each_writes.
Qed.

(** *** The order of the output *)

Lemma keys_of_Forall2 (l : list pyval) (ks : list pystr) :
  keys_of l = inr ks -> Forall2 (fun x k => sort_key x = inr k) l ks.
Proof.
  revert ks. induction l as [|x l IH]; simpl; intros ks H.
  - injection H as <-. constructor.
  - destruct (sort_key x) as [e|k] eqn:Ek; simpl in H; [discriminate|].
    destruct (keys_of l) as [e|ks'] eqn:El; simpl in H; [discriminate|].
    injection H as <-. constructor; auto.
Qed.

Lemma sorted_buckets_spec (st : State) (a b c : list pyval) :
  sorted_buckets st = inr (a, b, c) ->
  sort_by_id (with_events st) = inr a /\
  sort_by_id (without_events st) = inr b /\
  sort_by_id (errors st) = inr c.
Proof.
  unfold sorted_buckets.
  destruct (sort_by_id (with_events st)) as [e|a']; [discriminate|].
  destruct (sort_by_id (without_events st)) as [e|b']; [discriminate|].
  destruct (sort_by_id (errors st)) as [e|c']; [discriminate|].
  cbn [rbind]. intros H. injection H as -> -> ->. auto.
Qed.

(** *** Two runs *)

Lemma loop_body_det (response : pyval -> result bytes)
    (idx : nat) (m : pyval) (st : State) (w1 w2 : World) :
  (forall url n, fst (urlopen_read url n) = response url) ->
  fst (loop_body idx m st w1) = fst (loop_body idx m st w2).
Proof.
  intros Hdet.
  destruct m as [| | | | | |kvs];
    try (rewrite !loop_body_not_dict by (intros kvs; discriminate); reflexivity).
  destruct (resolve_id_dict idx kvs) as (meetup_id & Hid & _).
  destruct (py_get_dict kvs (u "meetupUrlRss")) as [rss_url Hurl].
  destruct (truthy rss_url) eqn:Ht.
  - rewrite !(loop_body_with_url idx _ meetup_id rss_url st _ Hid Hurl Ht).
    cbn [fst]. unfold attempt. now rewrite !Hdet.
  - now rewrite !(loop_body_missing_url idx _ meetup_id rss_url st _ Hid Hurl Ht).
Qed.

Lemma for_each_det (response : pyval -> result bytes) (ms : list pyval) :
  (forall url n, fst (urlopen_read url n) = response url) ->
  forall (idx : nat) (st : State) (w1 w2 : World),
  fst (for_each idx ms st w1) = fst (for_each idx ms st w2).
Proof.
  intros Hdet. induction ms as [|m ms IH]; intros idx st w1 w2; [reflexivity|].
  cbn [for_each]. unfold bind.
  pose proof (loop_body_det response idx m st w1 w2 Hdet) as Hb.
  destruct (loop_body idx m st w1) as [[e1|st1] w1'],
           (loop_body idx m st w2) as [[e2|st2] w2'];
    cbn [fst] in Hb; try discriminate.
  - now injection Hb as ->.
  - injection Hb as ->. apply IH.
Qed.

Lemma classify_all_det (response : pyval -> result bytes) (meetups : pyval)
    (w1 w2 : World) :
  (forall url n, fst (urlopen_read url n) = response url) ->
  fst (classify_all meetups w1) = fst (classify_all meetups w2).
Proof.
  intros Hdet. unfold classify_all, bind, lift.
  destruct (py_len meetups) as [e|total]; [reflexivity|].
  destruct (py_iter meetups) as [e|rows]; [reflexivity|].
  now apply (for_each_det response).
Qed.

(** C8.  Two runs on the same input file, against remote sides that answer
    each URL in one way, whatever their states and whatever the states of
    the two random generators: both runs end alike, both complete or both
    abort with the same exception, and they write the same three lists. *)
Theorem C8_outputs_do_not_depend_on_pauses
    (response : pyval -> result bytes) (master_path : pystr)
    (n1 n2 : Net) (g1 g2 : RNG) :
  (forall url n, fst (urlopen_read url n) = response url) ->
  observable (main master_path (mk_World n1 g1 []))
  = observable (main master_path (mk_World n2 g2 [])).
Proof.
  intros Hdet. unfold observable, main, bind, lift.
  destruct (json_load master_path) as [e|meetups]; [reflexivity|].
  pose proof (classify_all_det response meetups
                (mk_World n1 g1 []) (mk_World n2 g2 []) Hdet) as Hc.
  pose proof (classify_all_writes meetups (mk_World n1 g1 [])) as H1.
  pose proof (classify_all_writes meetups (mk_World n2 g2 [])) as H2.
  destruct (classify_all meetups (mk_World n1 g1 [])) as [[e1|st1] w1],
           (classify_all meetups (mk_World n2 g2 [])) as [[e2|st2] w2];
    cbn [fst snd trace] in Hc, H1, H2 |- *; try discriminate.
  - injection Hc as ->. now rewrite H1, H2.
  - injection Hc as ->. rewrite !sort_and_write_spec.
    destruct (sorted_buckets st2) as [e|abc]; cbn [fst snd trace].
    + now rewrite H1, H2.
    + unfold writes in *. now rewrite !filter_app, H1, H2.
Qed.

(** *** The records are passed through *)

(** C9.  In a run that completes, the lists written to the first two files
    hold, between them, the objects of the input, each as it was loaded and
    each once: the two lists together are a permutation of the input, so
    every object written is an object of the input with all its fields, and
    every object of the input is written. *)
Theorem C9_records_pass_through_unchanged (master_path : pystr) (w w' : World) :
  main master_path w = (inr tt, w') ->
  exists rows pre a b c,
    rbind (json_load master_path) py_iter = inr rows /\
    trace w'
    = pre ++ [EWrite OUT_WITH a; EWrite OUT_WITHOUT b; EWrite OUT_ERRORS c] /\
    writes pre = writes (trace w) /\
    Permutation (a ++ b) rows /\
    (forall x, In x (a ++ b) <-> In x rows) /\
    (forall x k, In x (a ++ b) ->
                 exists y, In y rows /\ py_get x k = py_get y k).
Proof.
  intros Hmain.
  destruct (main_ok_inv _ _ _ Hmain)
    as (meetups & st & w1 & [[a b] c] & Hload & Hc & Hs & ->).
  destruct (classify_all_inv _ _ _ _ Hc) as (rows & Hrows & Hrun).
  destruct (for_each_ok_dicts _ _ _ _ _ _ Hrun) as [records ->].
  destruct (for_each_dicts records 1 init_State w)
    as (st2 & w2 & Hrun2 & Hw & Hwo & _).
  cbn zeta in *. rewrite Hrun in Hrun2. injection Hrun2 as <- <-.
  cbn [init_State with_events without_events app] in Hw, Hwo.
  apply sorted_buckets_spec in Hs as (Ha & Hb & _).
  apply sort_by_id_spec in Ha as [Ha _].
  apply sort_by_id_spec in Hb as [Hb _].
  assert (Hperm : Permutation (a ++ b) (map PyDict records)).
  { eapply perm_trans; [apply Permutation_app; eassumption|].
    rewrite Hw, Hwo. apply (pick_partition_perm is_matched).
    apply outcomes_length. }
  exists (map PyDict records), (trace w1), a, b, c.
  split; [rewrite Hload; exact Hrows|].
  split; [reflexivity|].
  split.
  { pose proof (classify_all_writes meetups w) as H. now rewrite Hc in H. }
  split; [exact Hperm|].
  split.
  - intros x. split; apply Permutation_in; [|apply Permutation_sym]; exact Hperm.
  - intros x k Hx. exists x. split; [|reflexivity].
    eapply Permutation_in; eassumption.
Qed.

(** *** Decimal numerals and the tally *)

Lemma u_inj (s t : string) : u s = u t -> s = t.
Proof.
  unfold u. intros H.
  rewrite <- (string_of_list_ascii_of_string s), <- (string_of_list_ascii_of_string t).
  f_equal. revert H.
  generalize (list_ascii_of_string s) (list_ascii_of_string t).
  induction l as [|a l IH]; intros [|b l']; simpl; try discriminate; [reflexivity|].
  intros H. injection H as Hab Hl. f_equal; [|now apply IH].
  rewrite <- (ascii_N_embedding a), <- (ascii_N_embedding b). now rewrite Hab.
Qed.

Lemma to_uint_nonnil (n : nat) : Nat.to_uint n <> Decimal.Nil.
Proof.
  rewrite <- (DecimalNat.Unsigned.of_to n) at 1.
  rewrite DecimalNat.Unsigned.to_of. apply DecimalFacts.unorm_nonnil.
Qed.

Lemma str_of_nat_inj (n n' : nat) : str_of_nat n = str_of_nat n' -> n = n'.
Proof.
  unfold str_of_nat. intros H. apply u_inj in H.
  apply DecimalNat.Unsigned.to_uint_inj.
  assert (Hs : Some (Nat.to_uint n) = Some (Nat.to_uint n')).
  { rewrite <- (NilZero.usu _ (to_uint_nonnil n)),
            <- (NilZero.usu _ (to_uint_nonnil n')).
    now rewrite H. }
  now injection Hs.
Qed.

Lemma digits_of_uint (d : Decimal.uint) :
  Forall (fun c => is_digit c = true) (u (NilEmpty.string_of_uint d)).
Proof. induction d; simpl; constructor; try reflexivity; assumption. Qed.

Lemma str_of_nat_digits (n : nat) :
  Forall (fun c => is_digit c = true) (str_of_nat n).
Proof.
  unfold str_of_nat, NilZero.string_of_uint.
  destruct (Nat.to_uint n); try apply digits_of_uint.
  constructor; [reflexivity|constructor].
Qed.

(** Two texts that start with digits and go on with the same character
    that is no digit: the digits are the same and so is what follows. *)
Lemma digits_then_sep (d1 d2 : pystr) (c : N) (r1 r2 : pystr) :
  Forall (fun x => is_digit x = true) d1 ->
  Forall (fun x => is_digit x = true) d2 ->
  is_digit c = false ->
  d1 ++ c :: r1 = d2 ++ c :: r2 ->
  d1 = d2 /\ r1 = r2.
Proof.
  intros H1. revert d2. induction H1 as [|x d1 Hx _ IH]; intros d2 H2 Hc H.
  - destruct H2 as [|y d2 Hy _]; simpl in H.
    + injection H as ->. auto.
    + injection H as <- _. congruence.
  - destruct H2 as [|y d2 Hy H2]; simpl in H.
    + injection H as -> _. congruence.
    + injection H as -> H. destruct (IH d2 H2 Hc H) as [-> ->]. auto.
Qed.

Lemma app_same_prefix (p a b : pystr) : p ++ a = p ++ b -> a = b.
Proof. apply app_inv_head. Qed.

Lemma for_each_counters (ms : list pyval) :
  forall (idx : nat) (st st' : State) (w w' : World),
  for_each idx ms st w = (inr st', w') ->
  processed st' = processed st + List.length ms /\
  matched_count st' + no_match_count st' + error_count st'
  = matched_count st + no_match_count st + error_count st + List.length ms.
Proof.
  intros idx st st' w w' H.
  destruct (for_each_ok_dicts _ _ _ _ _ _ H) as [records ->].
  destruct (for_each_dicts records idx st w)
    as (st2 & w2 & Hrun & _ & _ & _ & Hmc & Hnc & Hec & Hp).
  cbn zeta in *. rewrite H in Hrun. injection Hrun as <- <-.
  split; [exact Hp|].
  pose proof (pick_partition_length is_matched
                (outcomes (map PyDict records) (net w)) (map PyDict records)
                (outcomes_length _ _)) as Hlen.
  pose proof (@pick_not_matched_length pyval
                (outcomes (map PyDict records) (net w)) (map PyDict records)) as Hnm.
  unfold not_matched in Hnm. lia.
Qed.

(** X1.  The tally line determines the five numbers it was made from: two
    calls of [fmt_tally] give the same text only for the same arguments. *)
Theorem X1_fmt_tally_injective
    (p t m n e p' t' m' n' e' : nat) :
  fmt_tally p t m n e = fmt_tally p' t' m' n' e' ->
  p = p' /\ t = t' /\ m = m' /\ n = n' /\ e = e'.
Proof.
  unfold fmt_tally. intros H.
  apply app_same_prefix in H.
  apply (digits_then_sep _ _ 47) in H as [Hp H];
    [|apply str_of_nat_digits|apply str_of_nat_digits|reflexivity].
  apply (digits_then_sep _ _ 32) in H as [Ht H];
    [|apply str_of_nat_digits|apply str_of_nat_digits|reflexivity].
  apply (app_same_prefix (u "| MATCH ")) in H.
  apply (digits_then_sep _ _ 32) in H as [Hm H];
    [|apply str_of_nat_digits|apply str_of_nat_digits|reflexivity].
  apply (app_same_prefix (u "| NO-MATCH ")) in H.
  apply (digits_then_sep _ _ 32) in H as [Hn H];
    [|apply str_of_nat_digits|apply str_of_nat_digits|reflexivity].
  apply (app_same_prefix (u "| ERROR ")) in H.
  repeat split; now apply str_of_nat_inj.
Qed.

(** X2.  Whenever the loop has gone through a list of rows without
    raising, [processed] is the number of rows and the three other counters
    add up to it: the tally printed then reads [processed k/total] with
    [MATCH + NO-MATCH + ERROR = k]. *)
Theorem X2_tally_counts_add_up
    (rows : list pyval) (total : nat) (st : State) (w w' : World) :
  for_each 1 rows init_State w = (inr st, w') ->
  processed st = List.length rows /\
  matched_count st + no_match_count st + error_count st = List.length rows /\
  exists matched no_match err,
    tally_line total st = fmt_tally (List.length rows) total matched no_match err /\
    matched + no_match + err = List.length rows.
Proof.
  intros H. destruct (for_each_counters _ _ _ _ _ _ H) as [Hp Hsum].
  cbn [init_State processed matched_count no_match_count error_count] in Hp, Hsum.
  split; [exact Hp|]. split; [exact Hsum|].
  exists (matched_count st), (no_match_count st), (error_count st).
  unfold tally_line. rewrite Hp. auto.
Qed.

(** *** More on the classifier *)

Lemma count_le_length (p : Element -> bool) (items : list Element) :
  count p items <= List.length items.
Proof. unfold count. apply filter_length_le. Qed.

Lemma count_perm (p : Element -> bool) (l l' : list Element) :
  Permutation l l' -> count p l = count p l'.
Proof.
  unfold count. induction 1 as [|x l l' _ IH|x y l|l l' l'' _ IH1 _ IH2]; simpl.
  - reflexivity.
  - destruct (p x); simpl; now rewrite IH.
  - destruct (p x), (p y); reflexivity.
  - now rewrite IH1.
Qed.

Lemma existsb_perm (p : Element -> bool) (l l' : list Element) :
  Permutation l l' -> existsb p l = existsb p l'.
Proof.
  induction 1 as [|x l l' _ IH|x y l|l l' l'' _ IH1 _ IH2]; simpl.
  - reflexivity.
  - now rewrite IH.
  - destruct (p x), (p y); reflexivity.
  - now rewrite IH1.
Qed.

Lemma find_first (tag : pystr) (t : pystr) (x : option pystr)
    (pre post : list Element) (c : Element) :
  none_tagged tag pre = true ->
  str_eqb (tag_of c) tag = true ->
  find tag (Elem t x (pre ++ c :: post)) = Some c.
Proof.
  unfold find, none_tagged. cbn [children_of]. intros Hpre Hc.
  induction pre as [|y pre IH]; simpl in *.
  - now rewrite Hc.
  - apply andb_prop in Hpre as [Hy Hpre].
    apply negb_true_iff in Hy. rewrite Hy. now apply IH.
Qed.

Lemma existsb_false_all (p : Element -> bool) (l : list Element) :
  (forall x, In x l -> p x = false) -> existsb p l = false.
Proof.
  intros H. apply not_true_is_false. intros E.
  apply existsb_exists in E as (x & Hx & Hp). rewrite (H x Hx) in Hp. discriminate.
Qed.

Lemma count_all (p : Element -> bool) (l : list Element) :
  (forall x, In x l -> p x = true) -> count p l = List.length l.
Proof.
  unfold count. induction l as [|x l IH]; intros H; simpl; [reflexivity|].
  rewrite (H x (or_introl eq_refl)). simpl. f_equal. apply IH.
  intros y Hy. apply H. now right.
Qed.

(** X3.  A feed whose items all carry a date that parses to a year other
    than the target year: no match, and both counts equal the number of
    items. *)
Theorem X3_all_dates_in_other_years
    (xml_bytes : bytes) (root channel : Element) (target_year : Z) :
  fromstring xml_bytes = inr root ->
  find (u "channel") root = Some channel ->
  (forall item, In item (findall (u "item") channel) ->
     exists pub dt,
       findtext (u "pubDate") item = Some pub /\ pub <> [] /\
       parsedate_to_datetime pub = Some dt /\ year dt <> target_year) ->
  rss_has_pubdate_year xml_bytes target_year
  = inr (false, List.length (findall (u "item") channel),
                List.length (findall (u "item") channel)).
Proof.
  intros Hroot Hch Hall.
  rewrite (rss_with_channel _ _ _ _ Hroot Hch).
  rewrite existsb_false_all, !count_all; [reflexivity| | |].
  - intros item Hin. destruct (Hall item Hin) as (pub & dt & Hp & Hne & Hd & _).
    unfold item_parsed. rewrite Hp. destruct pub; [congruence|]. now rewrite Hd.
  - intros item Hin. destruct (Hall item Hin) as (pub & dt & Hp & Hne & _).
    unfold item_seen. rewrite Hp. destruct pub; congruence.
  - intros item Hin. destruct (Hall item Hin) as (pub & dt & Hp & Hne & Hd & Hy).
    unfold item_matches. rewrite Hp. destruct pub; [congruence|]. rewrite Hd.
    now apply Z.eqb_neq.
Qed.

(** X4.  On every document that parses, the counts are ordered: the dates
    parsed are among the dates seen, which are at most one per item of the
    channel; and a match needs at least one parsed date. *)
Theorem X4_counts_are_bounded
    (xml_bytes : bytes) (root : Element) (target_year : Z) :
  fromstring xml_bytes = inr root ->
  exists has_match pubdates_seen pubdates_parsed,
    rss_has_pubdate_year xml_bytes target_year
    = inr (has_match, pubdates_seen, pubdates_parsed) /\
    pubdates_parsed <= pubdates_seen /\
    (forall channel, find (u "channel") root = Some channel ->
       pubdates_seen <= List.length (findall (u "item") channel)) /\
    (has_match = true -> 1 <= pubdates_parsed).
Proof.
  intros Hroot. destruct (find (u "channel") root) as [channel|] eqn:Hch.
  - do 3 eexists. split; [exact (rss_with_channel _ _ _ _ Hroot Hch)|].
    split; [apply parsed_le_seen|]. split.
    + intros channel' H. injection H as <-. apply count_le_length.
    + rewrite existsb_exists. intros (item & Hin & Hm).
      assert (Hp : item_parsed item = true).
      { unfold item_matches in Hm. unfold item_parsed.
        destruct (findtext (u "pubDate") item) as [[|c t]|]; try discriminate.
        now destruct (parsedate_to_datetime (c :: t)). }
      unfold count. clear Hm.
      induction (findall (u "item") channel) as [|x l IH]; [destruct Hin|].
      simpl. destruct Hin as [->|Hin].
      * rewrite Hp. simpl. lia.
      * specialize (IH Hin). destruct (item_parsed x); simpl; lia.
  - exists false, 0, 0. split; [exact (rss_without_channel _ _ _ Hroot Hch)|].
    repeat split; try lia; discriminate.
Qed.

(** X5.  The result depends on the items of the channel only, and not on
    their order: two documents whose channels hold the same items, in any
    order and among any other elements, are classified alike. *)
Theorem X5_item_order_is_irrelevant
    (xml1 xml2 : bytes) (root1 root2 channel1 channel2 : Element)
    (target_year : Z) :
  fromstring xml1 = inr root1 ->
  fromstring xml2 = inr root2 ->
  find (u "channel") root1 = Some channel1 ->
  find (u "channel") root2 = Some channel2 ->
  Permutation (findall (u "item") channel1) (findall (u "item") channel2) ->
  rss_has_pubdate_year xml1 target_year = rss_has_pubdate_year xml2 target_year.
Proof.
  intros H1 H2 Hc1 Hc2 Hperm.
  rewrite (rss_with_channel _ _ _ _ H1 Hc1), (rss_with_channel _ _ _ _ H2 Hc2).
  now rewrite (existsb_perm _ _ _ Hperm), !(count_perm _ _ _ Hperm).
Qed.

(** X6.  Only the first [channel] child of the root is read: whatever
    follows it in the document, another channel with items in the target
    year included, does not change the result. *)
Theorem X6_only_first_channel_is_read
    (xml1 xml2 : bytes) (t1 t2 : pystr) (x1 x2 : option pystr)
    (pre1 pre2 post1 post2 : list Element) (channel : Element)
    (target_year : Z) :
  fromstring xml1 = inr (Elem t1 x1 (pre1 ++ channel :: post1)) ->
  fromstring xml2 = inr (Elem t2 x2 (pre2 ++ channel :: post2)) ->
  none_tagged (u "channel") pre1 = true ->
  none_tagged (u "channel") pre2 = true ->
  str_eqb (tag_of channel) (u "channel") = true ->
  rss_has_pubdate_year xml1 target_year = rss_has_pubdate_year xml2 target_year.
Proof.
  intros H1 H2 Hp1 Hp2 Hc.
  rewrite (rss_with_channel _ _ _ _ H1 (find_first _ _ _ _ _ _ Hp1 Hc)).
  rewrite (rss_with_channel _ _ _ _ H2 (find_first _ _ _ _ _ _ Hp2 Hc)).
  reflexivity.
Qed.

(** X7.  Only the first [pubDate] child of an item is read: two items that
    agree up to and including their first [pubDate] go through the loop
    alike, whatever dates follow. *)
Theorem X7_only_first_pubdate_is_read
    (t1 t2 : pystr) (x1 x2 : option pystr)
    (pre post1 post2 : list Element) (date : Element)
    (target_year : Z) (acc : bool * nat * nat) :
  none_tagged (u "pubDate") pre = true ->
  str_eqb (tag_of date) (u "pubDate") = true ->
  item_step target_year (Elem t1 x1 (pre ++ date :: post1)) acc
  = item_step target_year (Elem t2 x2 (pre ++ date :: post2)) acc.
Proof.
  intros Hpre Hd. unfold item_step, findtext.
  now rewrite !(find_first _ _ _ _ _ _ Hpre Hd).
Qed.

(** X8.  The classifier raises exactly when the XML parser does, and then
    the same exception: a date that does not parse never makes it raise. *)
Theorem X8_classifier_raises_only_parser_errors
    (xml_bytes : bytes) (target_year : Z) (e : exn) :
  rss_has_pubdate_year xml_bytes target_year = inl e <->
  fromstring xml_bytes = inl e.
Proof.
  unfold rss_has_pubdate_year.
  destruct (fromstring xml_bytes) as [e'|root]; cbn [rbind].
  - split; intros H; injection H as ->; reflexivity.
  - destruct (find (u "channel") root); split; discriminate.
Qed.

(** *** Identifiers *)

(** X9.  A record with neither a truthy [meetupID] nor a truthy
    [meetupName] gets the identifier [row-<idx>], the text [row-] followed by
    its position in decimal; this identifier is never falsy, and it tells the
    rows apart: two such records at different positions get different
    identifiers. *)
Theorem X9_row_fallback_identifiers_are_distinct
    (idx idx' : nat) (m m' : pyval) :
  anonymous m = true -> anonymous m' = true ->
  resolve_id idx m = inr (PyStr (u "row-" ++ str_of_nat idx)) /\
  truthy (PyStr (u "row-" ++ str_of_nat idx)) = true /\
  (resolve_id idx m = resolve_id idx' m' -> idx = idx').
Proof.
  intros Hm Hm'.
  assert (Hrow : forall i x, anonymous x = true ->
            resolve_id i x = inr (PyStr (u "row-" ++ str_of_nat i))).
  { intros i [| | | | | |kvs]; try discriminate. cbn [anonymous].
    intros H. apply andb_prop in H as [Ha Hb].
    apply negb_true_iff in Ha, Hb.
    unfold resolve_id. rewrite !py_get_field. cbn [rbind].
    rewrite Ha. cbn [rbind]. now rewrite Hb. }
  rewrite (Hrow idx m Hm), (Hrow idx' m' Hm'). split; [reflexivity|].
  split; [reflexivity|].
  intros H. injection H as H. now apply str_of_nat_inj.
Qed.

(** *** The effects of the loop *)

(** X13.  A loaded value with nothing to iterate over, the empty array but
    also the empty object and the empty string, gives a run that makes no
    request, takes no pause and writes three empty arrays. *)
Theorem X13_empty_input_writes_three_empty_files
    (master_path : pystr) (meetups : pyval) (w : World) :
  json_load master_path = inr meetups ->
  py_iter meetups = inr [] ->
  main master_path w
  = (inr tt,
     mk_World (net w) (rng w)
       (trace w ++ [EWrite OUT_WITH []; EWrite OUT_WITHOUT []; EWrite OUT_ERRORS []])).
Proof.
  intros Hload Hiter. unfold main, bind, lift. rewrite Hload.
  unfold classify_all, bind, lift. rewrite Hiter.
  destruct meetups; try discriminate; cbn [py_len for_each]; unfold ret;
    rewrite sort_and_write_spec; reflexivity.
Qed.

(** X14.  A loaded value that is not an array aborts before anything is
    done: a number, a boolean or [null] at [len(meetups)] with a
    [TypeError], a non-empty object or string at its first key or character,
    which has no [get]. *)
Theorem X14_input_that_is_not_an_array
    (master_path : pystr) (meetups : pyval) (w : World) :
  json_load master_path = inr meetups ->
  (forall l, meetups <> PyList l) ->
  py_iter meetups <> inr [] ->
  exists e, main master_path w = (inl e, w) /\
    match meetups with
    | PyDict kvs => exists k, hd_error kvs = Some k /\
                              e = no_attribute (PyStr (fst k)) "get"
    | PyStr s => exists c, hd_error s = Some c /\ e = no_attribute (PyStr [c]) "get"
    | _ => e = TypeError (u "object of type '" ++ type_name meetups
                          ++ u "' has no len()")
    end.
Proof.
  intros Hload Hlist Hne. unfold main, bind, lift. rewrite Hload.
  unfold classify_all, bind, lift.
  destruct meetups as [| | | |s|l|kvs]; cbn [py_len py_iter];
    try (eexists; split; reflexivity).
  - destruct s as [|c s]; [now destruct Hne|].
    exists (no_attribute (PyStr [c]) "get"). split; [reflexivity|].
    exists c. auto.
  - now destruct (Hlist l).
  - destruct kvs as [|k kvs]; [now destruct Hne|].
    exists (no_attribute (PyStr (fst k)) "get"). split; [reflexivity|].
    exists k. auto.
Qed.

(** *** More on the sort *)

Lemma insert_keyed_filter (k : pystr) (kx : pystr * pyval) (l : list (pystr * pyval)) :
  filter (fun ky => str_eqb (fst ky) k) (insert_keyed kx l)
  = filter (fun ky => str_eqb (fst ky) k) (kx :: l).
Proof.
  induction l as [|ky l IH]; [reflexivity|].
  cbn [insert_keyed]. destruct (str_leb (fst kx) (fst ky)) eqn:E; [reflexivity|].
  cbn [filter] in *. rewrite IH.
  destruct (str_eqb (fst kx) k) eqn:Ex, (str_eqb (fst ky) k) eqn:Ey; try reflexivity.
  apply str_eqb_eq in Ex, Ey. rewrite Ex, Ey, str_leb_refl in E. discriminate.
Qed.

Lemma stable_sort_filter (k : pystr) (L : list (pystr * pyval)) :
  filter (fun ky => str_eqb (fst ky) k) (stable_sort L)
  = filter (fun ky => str_eqb (fst ky) k) L.
Proof.
  induction L as [|kx L IH]; [reflexivity|].
  cbn [stable_sort]. rewrite insert_keyed_filter. cbn [filter]. now rewrite IH.
Qed.

Lemma filter_keyed (k : pystr) (L : list (pystr * pyval)) :
  keyed L ->
  filter (has_key k) (map snd L)
  = map snd (filter (fun ky => str_eqb (fst ky) k) L).
Proof.
  induction 1 as [|kx L Hk _ IH]; [reflexivity|].
  cbn [map filter]. unfold has_key at 1. rewrite Hk, IH.
  now destruct (str_eqb (fst kx) k).
Qed.

Lemma stable_sort_fixpoint (L : list (pystr * pyval)) :
  StronglySorted key_le L -> stable_sort L = L.
Proof.
  induction 1 as [|kx L _ IH Hall]; [reflexivity|].
  cbn [stable_sort]. rewrite IH.
  destruct Hall as [|ky L Hk _]; [reflexivity|].
  cbn [insert_keyed]. unfold key_le, str_le in Hk. now rewrite Hk.
Qed.

Lemma combine_fst_snd (L : list (pystr * pyval)) :
  combine (map fst L) (map snd L) = L.
Proof. induction L as [|[k x] L IH]; [reflexivity|]. simpl. now rewrite IH. Qed.

Lemma sort_key_ok_iff (x : pyval) :
  (exists k, sort_key x = inr k) <-> id_sortable x = true.
Proof.
  destruct x as [| | | | | |kvs]; cbn [id_sortable];
    try (split; [intros [k H]; discriminate H|discriminate]).
  unfold sort_key. rewrite py_get_field. cbn [rbind].
  generalize (field kvs (u "meetupID")). intros a.
  destruct (truthy a) eqn:Ht; split.
  - intros [k Hk]. destruct a; try discriminate Hk. reflexivity.
  - intros Hs. destruct (str_or_falsy_truthy a Hs Ht) as [s ->]. eauto.
  - intros _. unfold str_or_falsy. destruct a; try reflexivity; now rewrite Ht.
  - eauto.
Qed.

Lemma keys_of_ok_all (l : list pyval) (ks : list pystr) :
  keys_of l = inr ks -> forallb id_sortable l = true.
Proof.
  intros H. apply keys_of_Forall2 in H. apply forallb_forall. intros x Hx.
  apply sort_key_ok_iff.
  induction H as [|y k l ks Hy _ IH]; [destruct Hx|].
  destruct Hx as [->|Hx]; eauto.
Qed.

Lemma sort_by_id_ok_iff (l : list pyval) :
  (exists l', sort_by_id l = inr l') <-> forallb id_sortable l = true.
Proof.
  split.
  - intros [l' H]. unfold sort_by_id in H.
    destruct (keys_of l) as [e|ks] eqn:Ek; [discriminate|].
    exact (keys_of_ok_all l ks Ek).
  - intros H. apply keys_of_total. apply Forall_forall. intros x Hx.
    apply sort_key_ok_iff. rewrite forallb_forall in H. auto.
Qed.

(** X15.  The sort is stable: the elements with any one key come out in
    the order in which they went in, so records whose identifiers differ by
    case only, or that have none, keep their input order. *)
Theorem X15_sort_is_stable (l l' : list pyval) (k : pystr) :
  sort_by_id l = inr l' ->
  filter (has_key k) l' = filter (has_key k) l.
Proof.
  unfold sort_by_id. destruct (keys_of l) as [e|ks] eqn:Ek; [discriminate|].
  cbn [rbind]. intros H. injection H as <-.
  destruct (keys_of_combine l ks Ek) as [Hk Hm].
  assert (Hks : keyed (stable_sort (combine ks l))).
  { unfold keyed. eapply Permutation_Forall;
      [apply Permutation_sym, stable_sort_perm|exact Hk]. }
  rewrite (filter_keyed k _ Hks), stable_sort_filter, <- (filter_keyed k _ Hk).
  now rewrite Hm.
Qed.

(** X16.  Sorting twice changes nothing: the output of the sort is a list
    that the sort leaves as it is. *)
Theorem X16_sort_is_idempotent (l l' : list pyval) :
  sort_by_id l = inr l' -> sort_by_id l' = inr l'.
Proof.
  unfold sort_by_id at 1. destruct (keys_of l) as [e|ks] eqn:Ek; [discriminate|].
  cbn [rbind]. intros H. injection H as <-.
  destruct (keys_of_combine l ks Ek) as [Hk _].
  assert (Hks : keyed (stable_sort (combine ks l))).
  { unfold keyed. eapply Permutation_Forall;
      [apply Permutation_sym, stable_sort_perm|exact Hk]. }
  unfold sort_by_id. rewrite (keys_of_keyed _ Hks). cbn [rbind].
  rewrite combine_fst_snd, stable_sort_fixpoint; [reflexivity|].
  apply stable_sort_sorted.
Qed.

(** X17.  The sort returns exactly when every element is an object whose
    [meetupID] is a string or falsy; otherwise it raises the exception of
    some element whose key cannot be computed.  When it returns, the output
    is a permutation of the input. *)
Theorem X17_sort_raises_on_non_string_identifier (l : list pyval) :
  ((exists l', sort_by_id l = inr l') <-> forallb id_sortable l = true) /\
  (forall e, sort_by_id l = inl e ->
     exists x, In x l /\ id_sortable x = false /\ sort_key x = inl e) /\
  (forall l', sort_by_id l = inr l' -> Permutation l' l).
Proof.
  split; [apply sort_by_id_ok_iff|]. split.
  - unfold sort_by_id.
    induction l as [|x l IH]; intros e; [discriminate|].
    cbn [keys_of]. destruct (sort_key x) as [e'|k] eqn:Ex; cbn [rbind].
    + intros H. injection H as <-. exists x. split; [now left|]. split; [|exact Ex].
      apply not_true_is_false. intros Hs.
      apply sort_key_ok_iff in Hs as [k Hk]. congruence.
    + destruct (keys_of l) as [e'|ks]; cbn [rbind]; [|discriminate].
      intros H. injection H as <-.
      destruct (IH e' eq_refl) as (y & Hy & Hs & Hk).
      exists y. split; [now right|]. auto.
  - intros l' H. exact (proj1 (sort_by_id_spec l l' H)).
Qed.

(** *** Records with an identifier that is not a string *)

(** *** The error list *)

Lemma loop_body_errors (idx : nat) (m : pyval) (st st' : State) (w w' : World) :
  loop_body idx m st w = (inr st', w') ->
  Forall well_shaped_entry (errors st) ->
  Forall well_shaped_entry (errors st').
Proof.
  intros H Hs.
  destruct m as [| | | | | |kvs];
    try (rewrite loop_body_not_dict in H by (intros kvs; discriminate);
         discriminate).
  destruct (resolve_id_dict idx kvs) as (meetup_id & Hid & Hty).
  destruct (py_get_dict kvs (u "meetupUrlRss")) as [rss_url Hurl].
  destruct (truthy rss_url) eqn:Ht.
  - rewrite (loop_body_with_url idx _ meetup_id rss_url st w Hid Hurl Ht) in H.
    injection H as <- _.
    destruct (attempt rss_url (net w)) as [e|[[[] seen] parsed]]; cbn; try exact Hs.
    apply Forall_app. split; [exact Hs|]. constructor; [|constructor].
    exists meetup_id. split; [exact Hty|]. right. eauto.
  - rewrite (loop_body_missing_url idx _ meetup_id rss_url st w Hid Hurl Ht) in H.
    injection H as <- _. cbn.
    apply Forall_app. split; [exact Hs|]. constructor; [|constructor].
    exists meetup_id. split; [exact Hty|]. now left.
Qed.

Lemma for_each_errors (ms : list pyval) :
  forall (idx : nat) (st st' : State) (w w' : World),
  for_each idx ms st w = (inr st', w') ->
  Forall well_shaped_entry (errors st) ->
  Forall well_shaped_entry (errors st').
Proof.
  induction ms as [|m ms IH]; intros idx st st' w w' H Hs.
  - injection H as <- _. exact Hs.
  - cbn [for_each] in H. unfold bind in H.
    destruct (loop_body idx m st w) as [[e|st1] w1] eqn:Hb; [discriminate|].
    exact (IH _ _ _ _ _ H (loop_body_errors _ _ _ _ _ _ Hb Hs)).
Qed.

(** X19.  In a run that completes, every entry of the error file has one of
    two forms: identifier and the message for a missing URL, or identifier,
    feed URL and message; the identifier is never falsy, and the feed URL,
    when there, is the truthy URL that was requested.  The error file has no
    more entries than the file of records without events. *)
Theorem X19_error_entries_are_well_shaped (master_path : pystr) (w w' : World) :
  main master_path w = (inr tt, w') ->
  exists pre a b c,
    trace w'
    = pre ++ [EWrite OUT_WITH a; EWrite OUT_WITHOUT b; EWrite OUT_ERRORS c] /\
    Forall well_shaped_entry c /\
    Forall (fun entry => lacks_id entry = false) c /\
    List.length c <= List.length b.
Proof.
  intros Hmain.
  destruct (main_ok_inv _ _ _ Hmain)
    as (meetups & st & w1 & [[a b] c] & Hload & Hc & Hs & ->).
  destruct (classify_all_inv _ _ _ _ Hc) as (rows & Hrows & Hrun).
  pose proof (for_each_errors _ _ _ _ _ _ Hrun (Forall_nil _)) as Hshape.
  destruct (for_each_ok_dicts _ _ _ _ _ _ Hrun) as [records ->].
  destruct (for_each_dicts records 1 init_State w)
    as (st2 & w2 & Hrun2 & _ & Hwo & He & _).
  cbn zeta in *. rewrite Hrun in Hrun2. injection Hrun2 as <- <-.
  cbn [init_State without_events errors map app] in Hwo, He.
  apply sorted_buckets_spec in Hs as (_ & Hb & Hcc).
  apply sort_by_id_spec in Hb as [Hb _].
  apply sort_by_id_spec in Hcc as [Hcc _].
  assert (Hshape_c : Forall well_shaped_entry c).
  { eapply Permutation_Forall; [apply Permutation_sym, Hcc|exact Hshape]. }
  exists (trace w1), a, b, c. split; [reflexivity|]. split; [exact Hshape_c|].
  split.
  - eapply Forall_impl; [|exact Hshape_c].
    intros entry (meetup_id & Hty & [->|(rss_url & msg & _ & ->)]);
      unfold lacks_id; cbn; now rewrite Hty.
  - rewrite (Permutation_length Hcc), (Permutation_length Hb), Hwo.
    rewrite <- (length_map entry_id (errors st)), He, length_map.
    rewrite pick_combine_length by apply length_seq.
    rewrite pick_not_matched_length. lia.
Qed.

(** *** One turn of the loop, with its console *)

Lemma print_one (v : pyval) (mach : Machine) :
  print [v] mach
  = (if printable v then inr tt else inl (encode_error v), mach).
Proof. unfold print, encode_error. simpl. now destruct (printable v). Qed.

Lemma print_two (v v' : pyval) (mach : Machine) :
  print [v; v'] mach
  = (if printable v
     then if printable v' then inr tt else inl (encode_error v')
     else inl (encode_error v), mach).
Proof.
  unfold print, encode_error. simpl.
  destruct (printable v); [|reflexivity]. now destruct (printable v').
Qed.

Lemma handler_io_spec (m meetup_id rss_url : pyval) (e : exn) :
  handler_io m meetup_id rss_url e
  = record_error m meetup_id rss_url (error_message e).
Proof. destruct e; reflexivity. Qed.

Lemma try_io_spec (m meetup_id rss_url : pyval) (st : State) (w : RWorld) :
  printable meetup_id = true ->
  ptry (try_block_io m meetup_id rss_url) (handler_io m meetup_id rss_url) (st, w)
  = (match attempt_io rss_url (r_net w) with
     | inl e =>
         if printable (PyStr (error_message e)) then inr tt
         else inl (encode_error (PyStr (error_message e)))
     | inr _ => inr tt
     end,
     (route m meetup_id rss_url st (attempt_io rss_url (r_net w)),
      with_request rss_url w)).
Proof.
  intros Hid.
  assert (Hh : forall e mach,
            handler_io m meetup_id rss_url e mach
            = (if printable (PyStr (error_message e)) then inr tt
               else inl (encode_error (PyStr (error_message e))),
               (on_error m meetup_id rss_url (error_message e) (fst mach), snd mach))).
  { intros e mach. rewrite handler_io_spec. unfold record_error, pbind, update.
    rewrite print_two, Hid. reflexivity. }
  unfold ptry, try_block_io, pbind, http_get_bytes_io, attempt_io, with_request, plift.
  destruct (make_request rss_url) as [e|].
  { unfold praise. rewrite Hh. reflexivity. }
  cbn [fst snd].
  destruct (urlopen_read rss_url (r_net w)) as [[e|xml_bytes] n]; cbn [fst snd rbind].
  { rewrite Hh. reflexivity. }
  destruct (rss_has_pubdate_year xml_bytes TARGET_YEAR) as [e|[[[] seen] parsed]].
  - rewrite Hh. reflexivity.
  - unfold update. cbn [fst snd]. rewrite print_one, Hid. reflexivity.
  - unfold update. cbn [fst snd]. rewrite print_one, Hid. reflexivity.
Qed.

Lemma sleep_random_io_spec (meetup_id : pyval) (st : State) (w : RWorld) :
  printable meetup_id = true ->
  sleep_random_io meetup_id (st, w) = (inr tt, (st, with_pause w)).
Proof.
  intros Hid. unfold sleep_random_io, with_pause. cbn [fst snd].
  destruct (randint SLEEP_MIN_SECS SLEEP_MAX_SECS (r_rng w)) as [s g].
  unfold pbind.
  destruct (truthy meetup_id).
  - rewrite print_one, Hid. reflexivity.
  - reflexivity.
Qed.

(** What a turn on an object does, case by case. *)
Lemma loop_body_io_turn (idx : nat) (m meetup_id rss_url : pyval)
    (st : State) (w : RWorld) :
  resolve_id idx m = inr meetup_id ->
  py_get m (u "meetupUrlRss") = inr rss_url ->
  loop_body_io idx m (st, w)
  = if truthy rss_url then
      if printable meetup_id then
        if printable rss_url then
          match attempt_io rss_url (r_net w) with
          | inl e =>
              if printable (PyStr (error_message e))
              then (inr tt,
                    (on_error m meetup_id rss_url (error_message e) st,
                     with_pause (with_request rss_url w)))
              else (inl (encode_error (PyStr (error_message e))),
                    (on_error m meetup_id rss_url (error_message e) st,
                     with_request rss_url w))
          | inr (true, _, _) =>
              (inr tt, (on_match m st, with_pause (with_request rss_url w)))
          | inr (false, _, _) =>
              (inr tt, (on_no_match m st, with_pause (with_request rss_url w)))
          end
        else (inl (encode_error rss_url), (st, w))
      else (inl (encode_error meetup_id), (st, w))
    else
      (if printable meetup_id then inr tt else inl (encode_error meetup_id),
       (on_missing_url m meetup_id st, w)).
Proof.
  intros Hid Hurl. unfold loop_body_io.
  unfold pbind at 1. unfold plift at 1. rewrite Hid.
  unfold pbind at 1. unfold plift at 1. rewrite Hurl.
  destruct (truthy rss_url) eqn:Ht; cbn [negb].
  - unfold pbind at 1. rewrite print_two.
    destruct (printable meetup_id) eqn:Hp; [|reflexivity].
    destruct (printable rss_url) eqn:Hu; [|reflexivity].
    unfold pbind at 1. rewrite (try_io_spec _ _ _ _ _ Hp).
    destruct (attempt_io rss_url (r_net w)) as [e|[[[] seen] parsed]]; cbn [route].
    + destruct (printable (PyStr (error_message e))); [|reflexivity].
      apply sleep_random_io_spec, Hp.
    + apply sleep_random_io_spec, Hp.
    + apply sleep_random_io_spec, Hp.
  - unfold pbind, update. cbn [fst snd]. rewrite print_one. reflexivity.
Qed.

Lemma loop_body_io_not_dict (idx : nat) (m : pyval) (mach : Machine) :
  is_dict m = false ->
  loop_body_io idx m mach = (inl (no_attribute m "get"), mach).
Proof.
  intros Hm. unfold loop_body_io, pbind, plift, resolve_id.
  destruct m; try reflexivity. discriminate.
Qed.

(** *** The whole loop, with its console *)

Lemma loop_body_io_ok (idx : nat) (kvs : list (pystr * pyval))
    (st st' : State) (w w' : RWorld) :
  loop_body_io idx (PyDict kvs) (st, w) = (inr tt, (st', w')) ->
  step_ok idx (PyDict kvs) (outcome_io (PyDict kvs) (r_net w)) st st' /\
  r_net w' = net_after_io (PyDict kvs) (r_net w) /\
  r_rng w' = rng_after_io (PyDict kvs) (r_rng w) /\
  r_trace w' = r_trace w ++ turn_events (PyDict kvs) (r_rng w).
Proof.
  destruct (resolve_id_dict idx kvs) as (meetup_id & Hid & _).
  destruct (py_get_dict kvs (u "meetupUrlRss")) as [rss_url Hurl].
  rewrite (loop_body_io_turn idx _ meetup_id rss_url st w Hid Hurl).
  unfold outcome_io, net_after_io, rng_after_io, turn_events, feed_url.
  rewrite Hurl. unfold step_ok, id_at.
  destruct (truthy rss_url) eqn:Ht.
  - destruct (printable meetup_id); [|discriminate].
    destruct (printable rss_url); [|discriminate].
    unfold with_pause, with_request.
    destruct (attempt_io rss_url (r_net w)) as [e|[[[] seen] parsed]].
    + destruct (printable (PyStr (error_message e))); [|discriminate].
      intros H. injection H as <- <-.
      destruct (make_request rss_url); cbn;
        rewrite ?app_nil_r, ?map_app, ?Hid, <- ?app_assoc; cbn;
        repeat split; try lia.
    + intros H. injection H as <- <-.
      destruct (make_request rss_url); cbn;
        rewrite ?app_nil_r, ?map_app, ?Hid, <- ?app_assoc; cbn;
        repeat split; try lia.
    + intros H. injection H as <- <-.
      destruct (make_request rss_url); cbn;
        rewrite ?app_nil_r, ?map_app, ?Hid, <- ?app_assoc; cbn;
        repeat split; try lia.
  - destruct (printable meetup_id); [|discriminate].
    intros H. injection H as <- <-. cbn.
    rewrite ?app_nil_r, ?map_app, ?Hid. cbn. repeat split; try lia.
Qed.

Lemma for_each_io_dicts (records : list (list (pystr * pyval))) :
  forall (idx : nat) (st st' : State) (w w' : RWorld),
  let ms := map PyDict records in
  let os := outcomes_io ms (r_net w) in
  for_each_io idx ms (st, w) = (inr tt, (st', w')) ->
  with_events st' = with_events st ++ pick is_matched os ms /\
  without_events st' = without_events st ++ pick not_matched os ms /\
  map entry_id (errors st')
  = map entry_id (errors st)
    ++ map id_at (pick is_errored os (combine (seq idx (List.length ms)) ms)) /\
  matched_count st' = matched_count st + List.length (pick is_matched os ms) /\
  no_match_count st' = no_match_count st + List.length (pick is_unmatched os ms) /\
  error_count st' = error_count st + List.length (pick is_errored os ms) /\
  processed st' = processed st + List.length ms /\
  r_trace w' = r_trace w ++ loop_trace_io ms (r_rng w).
Proof.
  induction records as [|kvs records IH]; intros idx st st' w w'; cbn zeta.
  - cbn. intros H. injection H as <- <-. rewrite !app_nil_r. repeat split; lia.
  - cbn [map outcomes_io for_each_io List.length seq combine loop_trace_io].
    unfold pbind at 1.
    destruct (loop_body_io idx (PyDict kvs) (st, w)) as [[e|[]] [st1 w1]] eqn:Hb;
      [discriminate|].
    destruct (loop_body_io_ok _ _ _ _ _ _ Hb)
      as ((Hw & Hwo & He & Hmc & Hnc & Hec & Hp) & Hnet & Hrng & Htr).
    intros H.
    destruct (IH (S idx) st1 st' w1 w' H)
      as (Hw2 & Hwo2 & He2 & Hmc2 & Hnc2 & Hec2 & Hp2 & Htr2).
    rewrite <- Hnet, <- Hrng.
    rewrite !(pick_cons _ (outcome_io (PyDict kvs) (r_net w))
                (outcomes_io (map PyDict records) (r_net w1))).
    rewrite Hw2, Hwo2, He2, Hmc2, Hnc2, Hec2, Hp2, Htr2.
    rewrite Hw, Hwo, He, Hmc, Hnc, Hec, Hp, Htr.
    rewrite !map_app, !length_app, <- !app_assoc.
    repeat split; lia.
Qed.

Lemma outcomes_io_length (ms : list pyval) (n : Net) :
  List.length (outcomes_io ms n) = List.length ms.
Proof.
  revert n. induction ms as [|m ms IH]; intros n; simpl; [reflexivity|].
  now rewrite IH.
Qed.




(** *** Sorting and writing, with the files *)

Lemma write_json_io_spec (path : pystr) (content : list pyval)
    (st : State) (w : RWorld) :
  write_json_io path content (st, w)
  = match open_write path with
    | Some e => (inl e, (st, w))
    | None =>
        if dumpable (PyList content)
        then (inr tt,
              (st, mk_RWorld (r_net w) (r_rng w) (r_trace w ++ [Wrote path content])))
        else (inl (OtherException (dump_error_text content)),
              (st, mk_RWorld (r_net w) (r_rng w)
                     (r_trace w ++ [LeftPartial path content])))
    end.
Proof.
  unfold write_json_io. destruct (open_write path); [reflexivity|].
  now destruct (dumpable (PyList content)).
Qed.

Lemma write_files_spec (p1 p2 p3 : pystr) (c1 c2 c3 : list pyval)
    (st : State) (w : RWorld) :
  (write_json_io p1 c1 >> write_json_io p2 c2 >> write_json_io p3 c3) (st, w)
  = (match snd (write_files [(p1, c1); (p2, c2); (p3, c3)]) with
     | None => inr tt
     | Some e => inl e
     end,
     (st, mk_RWorld (r_net w) (r_rng w)
            (r_trace w ++ fst (write_files [(p1, c1); (p2, c2); (p3, c3)])))).
Proof.
  unfold pbind. rewrite write_json_io_spec. cbn [write_files].
  destruct (open_write p1) as [e|].
  { cbn. rewrite app_nil_r. now destruct w. }
  destruct (dumpable (PyList c1)); [|reflexivity].
  rewrite write_json_io_spec. cbn [r_net r_rng r_trace].
  destruct (open_write p2) as [e|]; [reflexivity|].
  destruct (dumpable (PyList c2)); [|cbn; now rewrite <- app_assoc].
  rewrite write_json_io_spec. cbn [r_net r_rng r_trace].
  destruct (open_write p3) as [e|]; [cbn; now rewrite <- app_assoc|].
  destruct (dumpable (PyList c3)); cbn; now rewrite <- !app_assoc.
Qed.

Lemma sort_in_place_spec (get : State -> list pyval)
    (set : list pyval -> State -> State) (st : State) (w : RWorld) :
  sort_in_place get set (st, w)
  = match sort_by_id (get st) with
    | inl e => (inl e, (st, w))
    | inr sorted => (inr tt, (set sorted st, w))
    end.
Proof.
  unfold sort_in_place, pbind, current, plift, update. cbn [fst snd].
  now destruct (sort_by_id (get st)).
Qed.

(** The state with its three lists sorted. *)
Lemma sort_and_write_io_spec (st : State) (w : RWorld) :
  sort_and_write_io (st, w)
  = match sorted_buckets st with
    | inl e =>
        (inl e,
         (match sort_by_id (with_events st) with
          | inl _ => st
          | inr a =>
              match sort_by_id (without_events st) with
              | inl _ => set_with_events a st
              | inr b => set_without_events b (set_with_events a st)
              end
          end, w))
    | inr (a, b, c) =>
        let st' := set_errors c (set_without_events b (set_with_events a st)) in
        (match snd (write_files (output_files st')) with
         | None => inr tt
         | Some e => inl e
         end,
         (st', mk_RWorld (r_net w) (r_rng w)
                 (r_trace w ++ fst (write_files (output_files st')))))
    end.
Proof.
  unfold sort_and_write_io, sorted_buckets.
  unfold pbind at 1. rewrite sort_in_place_spec.
  destruct (sort_by_id (with_events st)) as [e|a]; [reflexivity|].
  unfold pbind at 1. rewrite sort_in_place_spec. cbn [set_with_events without_events].
  destruct (sort_by_id (without_events st)) as [e|b]; [reflexivity|].
  unfold pbind at 1. rewrite sort_in_place_spec.
  cbn [set_without_events set_with_events errors].
  destruct (sort_by_id (errors st)) as [e|c]; [reflexivity|].
  cbn [rbind]. unfold pbind at 1, current. cbn [fst snd].
  apply write_files_spec.
Qed.

Lemma main_io_unfold (master_path : pystr) (w : RWorld) :
  main_io master_path w
  = match json_load master_path with
    | inl e => (inl e, (init_State, w))
    | inr meetups =>
        match classify_all_io meetups (init_State, w) with
        | (inl e, mach) => (inl e, mach)
        | (inr _, mach) => sort_and_write_io mach
        end
    end.
Proof.
  unfold main_io, pbind, plift.
  destruct (json_load master_path); [reflexivity|].
  now destruct (classify_all_io p (init_State, w)) as [[e|[]] mach].
Qed.

Lemma classify_all_io_unfold (meetups : pyval) (mach : Machine) :
  classify_all_io meetups mach
  = match py_len meetups with
    | inl e => (inl e, mach)
    | inr _ =>
        match py_iter meetups with
        | inl e => (inl e, mach)
        | inr rows => for_each_io 1 rows mach
        end
    end.
Proof.
  unfold classify_all_io, pbind, plift.
  destruct (py_len meetups); [reflexivity|].
  now destruct (py_iter meetups).
Qed.

(** A run that completes: the loop ran over all rows, the sorts returned,
    the three files were written with the buckets as the run left them. *)
Lemma main_io_ok_inv (master_path : pystr) (w w' : RWorld) (st : State) :
  main_io master_path w = (inr tt, (st, w')) ->
  exists meetups rows st0 w0,
    json_load master_path = inr meetups /\
    py_iter meetups = inr rows /\
    for_each_io 1 rows (init_State, w) = (inr tt, (st0, w0)) /\
    sort_by_id (with_events st0) = inr (with_events st) /\
    sort_by_id (without_events st0) = inr (without_events st) /\
    sort_by_id (errors st0) = inr (errors st) /\
    r_trace w'
    = r_trace w0 ++ [ Wrote OUT_WITH (with_events st);
                      Wrote OUT_WITHOUT (without_events st);
                      Wrote OUT_ERRORS (errors st) ].
Proof.
  rewrite main_io_unfold.
  destruct (json_load master_path) as [e|meetups] eqn:Hload; [discriminate|].
  rewrite classify_all_io_unfold.
  destruct (py_len meetups) as [e|total]; [discriminate|].
  destruct (py_iter meetups) as [e|rows] eqn:Hiter; [discriminate|].
  destruct (for_each_io 1 rows (init_State, w)) as [[e|[]] [st0 w0]] eqn:Hrun;
    [discriminate|].
  rewrite sort_and_write_io_spec. unfold sorted_buckets.
  destruct (sort_by_id (with_events st0)) as [e|a] eqn:Ea; [discriminate|].
  destruct (sort_by_id (without_events st0)) as [e|b] eqn:Eb; [discriminate|].
  destruct (sort_by_id (errors st0)) as [e|c] eqn:Ec; [discriminate|].
  cbn [rbind]. cbn zeta.
  unfold output_files. cbn [write_files set_errors set_without_events set_with_events
                            with_events without_events errors fst snd].
  destruct (open_write OUT_WITH); [discriminate|].
  destruct (dumpable (PyList a)); [|discriminate].
  destruct (open_write OUT_WITHOUT); [discriminate|].
  destruct (dumpable (PyList b)); [|discriminate].
  destruct (open_write OUT_ERRORS); [discriminate|].
  destruct (dumpable (PyList c)); [|discriminate].
  cbn [fst snd]. intros H. injection H as <- <-.
  exists meetups, rows, st0, w0. cbn. repeat split; try assumption; reflexivity.
Qed.

(** *** The effects of any run *)

Lemma loop_body_io_events (ok : Z -> Prop) (idx : nat) (m : pyval)
    (st : State) (w : RWorld) :
  ok (fst (randint SLEEP_MIN_SECS SLEEP_MAX_SECS (r_rng w))) ->
  exists t,
    r_trace (snd (snd (loop_body_io idx m (st, w)))) = r_trace w ++ t /\
    (forall t', turns ok t' ->
       match fst (loop_body_io idx m (st, w)) with
       | inr _ => turns ok (t ++ t')
       | inl _ => True
       end) /\
    match fst (loop_body_io idx m (st, w)) with
    | inr _ => True
    | inl _ => turns ok t
    end.
Proof.
  intros Hok.
  destruct m as [| | | | | |kvs];
    try (rewrite loop_body_io_not_dict by reflexivity;
         exists []; cbn [fst snd]; rewrite app_nil_r;
         repeat split; auto; constructor).
  destruct (resolve_id_dict idx kvs) as (meetup_id & Hid & _).
  destruct (py_get_dict kvs (u "meetupUrlRss")) as [rss_url Hurl].
  rewrite (loop_body_io_turn idx _ meetup_id rss_url st w Hid Hurl).
  assert (Hnone : forall (r : result unit) (st1 : State),
            exists t, r_trace (snd (snd (r, (st1, w)))) = r_trace w ++ t /\
              (forall t', turns ok t' ->
                 match fst (r, (st1, w)) with
                 | inr _ => turns ok (t ++ t') | inl _ => True end) /\
              match fst (r, (st1, w)) with
              | inr _ => True | inl _ => turns ok t end).
  { intros r st1. exists []. cbn [fst snd]. rewrite app_nil_r.
    repeat split; destruct r; auto; constructor. }
  destruct (truthy rss_url); [|apply Hnone].
  destruct (printable meetup_id); [|apply Hnone].
  destruct (printable rss_url); [|apply Hnone].
  assert (Hdone : forall (st1 : State),
            exists t,
              r_trace (snd (snd (@inr exn unit tt,
                                 (st1, with_pause (with_request rss_url w)))))
              = r_trace w ++ t /\
              (forall t', turns ok t' -> turns ok (t ++ t')) /\ True).
  { intros st1. unfold with_pause, with_request.
    destruct (make_request rss_url); cbn [fst snd r_trace r_rng].
    - eexists. split; [reflexivity|]. split; [|exact I].
      intros t' Ht'. cbn. now constructor.
    - eexists. rewrite <- app_assoc. split; [reflexivity|]. split; [|exact I].
      intros t' Ht'. cbn. now constructor. }
  destruct (attempt_io rss_url (r_net w)) as [e|[[[] seen] parsed]];
    try apply Hdone.
  destruct (printable (PyStr (error_message e))); [apply Hdone|].
  unfold with_request. destruct (make_request rss_url); cbn [fst snd r_trace].
  - exists []. rewrite app_nil_r. repeat split; auto; constructor.
  - eexists. split; [reflexivity|]. split; [auto|constructor].
Qed.

Lemma for_each_io_turns (ok : Z -> Prop) (ms : list pyval) :
  (forall g, ok (fst (randint SLEEP_MIN_SECS SLEEP_MAX_SECS g))) ->
  forall (idx : nat) (mach : Machine),
  exists t,
    r_trace (snd (snd (for_each_io idx ms mach))) = r_trace (snd mach) ++ t /\
    turns ok t.
Proof.
  intros Hok. induction ms as [|m ms IH]; intros idx [st w].
  - exists []. cbn. rewrite app_nil_r. split; [reflexivity|constructor].
  - cbn [for_each_io]. unfold pbind.
    destruct (loop_body_io_events ok idx m st w (Hok _)) as (t & Htr & Hgo & Hstop).
    destruct (loop_body_io idx m (st, w)) as [[e|[]] mach1]; cbn [fst snd] in *.
    + exists t. auto.
    + destruct (IH (S idx) mach1) as (t' & Htr' & Ht').
      exists (t ++ t'). rewrite Htr', Htr, <- app_assoc. auto.
Qed.

Lemma turns_no_files (ok : Z -> Prop) (t : list io_event) :
  turns ok t -> file_events t = [].
Proof. induction 1; cbn; auto. Qed.


Lemma write_files_are_files (files : list (pystr * list pyval)) :
  Forall (fun e => is_file_event e = true) (fst (write_files files)).
Proof.
  induction files as [|[path content] files IH]; cbn [write_files];
    [constructor|].
  destruct (open_write path); [constructor|].
  destruct (dumpable (PyList content)); cbn [fst].
  - constructor; [reflexivity|exact IH].
  - constructor; [reflexivity|constructor].
Qed.

Lemma for_each_io_app (l1 l2 : list pyval) :
  forall (idx : nat) (mach : Machine),
  for_each_io idx (l1 ++ l2) mach =
  match for_each_io idx l1 mach with
  | (inl e, mach1) => (inl e, mach1)
  | (inr _, mach1) => for_each_io (idx + List.length l1) l2 mach1
  end.
Proof.
  induction l1 as [|m l1 IH]; intros idx mach.
  - simpl. now rewrite Nat.add_0_r.
  - cbn [app for_each_io List.length]. unfold pbind.
    destruct (loop_body_io idx m mach) as [[e|[]] mach1]; [reflexivity|].
    rewrite IH. now rewrite Nat.add_succ_r.
Qed.

(** The structure of every run: the turns of the loop, then the files. *)
Lemma main_io_events (ok : Z -> Prop) (master_path : pystr) (w : RWorld) :
  (forall g, ok (fst (randint SLEEP_MIN_SECS SLEEP_MAX_SECS g))) ->
  exists t fs,
    r_trace (snd (snd (main_io master_path w))) = r_trace w ++ t ++ fs /\
    turns ok t /\
    Forall (fun e => is_file_event e = true) fs /\
    (fs <> [] ->
     exists meetups rows st0 w0 abc,
       json_load master_path = inr meetups /\
       py_iter meetups = inr rows /\
       for_each_io 1 rows (init_State, w) = (inr tt, (st0, w0)) /\
       sorted_buckets st0 = inr abc).
Proof.
  intros Hok.
  assert (Hstop : forall (r : result unit) (st : State) (w1 : RWorld) (t : list io_event),
            r_trace w1 = r_trace w ++ t -> turns ok t ->
            exists t' fs,
              r_trace (snd (snd (r, (st, w1)))) = r_trace w ++ t' ++ fs /\
              turns ok t' /\ Forall (fun e => is_file_event e = true) fs /\
              (fs <> [] ->
               exists meetups rows st0 w0 abc,
                 json_load master_path = inr meetups /\
                 py_iter meetups = inr rows /\
                 for_each_io 1 rows (init_State, w) = (inr tt, (st0, w0)) /\
                 sorted_buckets st0 = inr abc)).
  { intros r st w1 t Htr Ht. exists t, []. cbn [fst snd]. rewrite app_nil_r.
    split; [exact Htr|]. split; [exact Ht|]. split; [constructor|].
    intros H. now destruct H. }
  assert (Hnil : r_trace w = r_trace w ++ []) by now rewrite app_nil_r.
  rewrite main_io_unfold.
  destruct (json_load master_path) as [e|meetups] eqn:Hload.
  { exact (Hstop _ _ w [] Hnil (turns_nil ok)). }
  rewrite classify_all_io_unfold.
  destruct (py_len meetups) as [e|total].
  { exact (Hstop _ _ w [] Hnil (turns_nil ok)). }
  destruct (py_iter meetups) as [e|rows] eqn:Hiter.
  { exact (Hstop _ _ w [] Hnil (turns_nil ok)). }
  destruct (for_each_io_turns ok rows Hok 1 (init_State, w)) as (t & Htr & Ht).
  destruct (for_each_io 1 rows (init_State, w)) as [[e|[]] [st0 w0]] eqn:Hrun;
    cbn [fst snd] in Htr.
  { exact (Hstop _ _ w0 t Htr Ht). }
  rewrite sort_and_write_io_spec.
  destruct (sorted_buckets st0) as [e|[[a b] c]] eqn:Hs.
  { exact (Hstop _ _ w0 t Htr Ht). }
  cbn zeta. cbn [fst snd r_trace].
  eexists t, _. rewrite Htr, <- app_assoc. split; [reflexivity|].
  split; [exact Ht|]. split; [apply write_files_are_files|].
  intros _. exists meetups, rows, st0, w0, (a, b, c). auto.
Qed.

(** *** Runs with their console and files *)

Lemma attempt_io_fails (rss_url : pyval) (n : Net) (e : exn) :
  make_request rss_url = Some e \/
  (make_request rss_url = None /\ fst (urlopen_read rss_url n) = inl e) \/
  (exists xml_bytes,
     make_request rss_url = None /\
     fst (urlopen_read rss_url n) = inr xml_bytes /\
     fromstring xml_bytes = inl e) ->
  attempt_io rss_url n = inl e.
Proof.
  unfold attempt_io.
  intros [->|[[-> ->]|(xml_bytes & -> & -> & Hx)]]; try reflexivity.
  cbn [rbind]. unfold rss_has_pubdate_year. now rewrite Hx.
Qed.

Lemma for_each_io_stops (records : list (list (pystr * pyval)))
    (bad : pyval) (rest : list pyval) (idx : nat) (mach mach1 : Machine) :
  is_dict bad = false ->
  for_each_io idx (map PyDict records) mach = (inr tt, mach1) ->
  for_each_io idx (map PyDict records ++ bad :: rest) mach
  = (inl (no_attribute bad "get"), mach1).
Proof.
  intros Hbad Hrun. rewrite for_each_io_app, Hrun.
  cbn [for_each_io]. unfold pbind. now rewrite loop_body_io_not_dict.
Qed.

Lemma for_each_io_no_files (ms : list pyval) (idx : nat) (mach : Machine) :
  file_events (r_trace (snd (snd (for_each_io idx ms mach))))
  = file_events (r_trace (snd mach)).
Proof.
  destruct (for_each_io_turns (fun _ => True) ms (fun _ => I) idx mach)
    as (t & -> & Ht).
  unfold file_events. rewrite filter_app.
  fold (file_events t). rewrite (turns_no_files _ _ Ht). apply app_nil_r.
Qed.




Lemma sort_key_identifier (x : pyval) (k : pystr) :
  sort_key x = inr k -> k = lower (identifier x).
Proof.
  destruct x as [| | | | | |kvs]; try discriminate.
  unfold sort_key, identifier. rewrite py_get_field. cbn [rbind].
  destruct (field kvs (u "meetupID")) as [| [] | z | f | s | l | d];
    cbn [truthy]; try (intros H; injection H as <-; reflexivity);
    try discriminate.
  - destruct (negb (Z.eqb z 0)); [discriminate|].
    intros H. now injection H as <-.
  - destruct f; try discriminate; intros H; now injection H as <-.
  - destruct s; intros H; now injection H as <-.
  - destruct l; [|discriminate]. intros H. now injection H as <-.
  - destruct d; [|discriminate]. intros H. now injection H as <-.
Qed.

Lemma sorted_ascending (l : list pyval) :
  sorted_by_id l -> ascending_by_identifier l.
Proof.
  intros (ks & Hk & Hs). apply keys_of_Forall2 in Hk.
  unfold ascending_by_identifier.
  revert Hs. induction Hk as [|x k l ks Hx Hk IH]; intros Hs; [constructor|].
  inversion Hs as [|? ? Hs' Hall]; subst. constructor; [now apply IH|].
  apply sort_key_identifier in Hx. subst k.
  clear IH Hs Hs'. induction Hk as [|y k' l ks Hy _ IH]; [constructor|].
  inversion Hall; subst. apply sort_key_identifier in Hy. subst k'.
  constructor; [assumption|]. now apply IH.
Qed.

Lemma ascending_first (l : list pyval) :
  lower [] = [] ->
  (forall s, lower s = [] -> s = []) ->
  ascending_by_identifier l -> without_identifier_first l.
Proof.
  intros Hempty Honly Hs l1 x l2 -> Hx.
  unfold ascending_by_identifier in Hs.
  induction l1 as [|y l1 IH]; [constructor|].
  cbn [app] in Hs. inversion Hs as [|? ? Hs' Hall]; subst.
  constructor; [|now apply IH].
  rewrite Forall_app in Hall. destruct Hall as [_ Hall].
  inversion Hall as [|? ? Hyx _]; subst.
  rewrite Hx, Hempty in Hyx. apply Honly. now apply str_leb_nil_r.
Qed.

(** C5, amended.  (1) A failure of the request or of the XML parse, of any
    class, the refusal of the URL by [Request] included, is caught within
    the turn of the loop, once the line that announces the fetch has been
    printed: the entry made of the identifier, the feed URL and the message
    is appended to [errors] and the record is appended to [without_events];
    if the line that reports the error can be printed too, the pause is
    taken and the loop goes on to the next record, and if not the run stops
    there.  (2) When the input file cannot be loaded the run aborts with
    nothing done.  (3) An element of the input that is not an object aborts
    the run when the loop reaches it.  (4) No file is touched unless the
    loop has run to its end and the three sorts have returned. *)
Theorem C5_fetch_and_parse_failures_are_caught :
  (forall idx kvs rss_url e st w rest,
     py_get (PyDict kvs) (u "meetupUrlRss") = inr rss_url ->
     truthy rss_url = true ->
     (make_request rss_url = Some e \/
      (make_request rss_url = None /\
       fst (urlopen_read rss_url (r_net w)) = inl e) \/
      (exists xml_bytes,
         make_request rss_url = None /\
         fst (urlopen_read rss_url (r_net w)) = inr xml_bytes /\
         fromstring xml_bytes = inl e)) ->
     exists meetup_id st',
       resolve_id idx (PyDict kvs) = inr meetup_id /\
       errors st'
       = errors st ++ [PyDict [ (u "meetupID", meetup_id);
                                (u "meetupUrlRss", rss_url);
                                (u "error", PyStr (error_message e)) ]] /\
       without_events st' = without_events st ++ [PyDict kvs] /\
       with_events st' = with_events st /\
       (printable meetup_id = true -> printable rss_url = true ->
        if printable (PyStr (error_message e))
        then for_each_io idx (PyDict kvs :: rest) (st, w)
             = for_each_io (S idx) rest (st', with_pause (with_request rss_url w))
        else for_each_io idx (PyDict kvs :: rest) (st, w)
             = (inl (encode_error (PyStr (error_message e))),
                (st', with_request rss_url w)))) /\
  (forall master_path w e,
     json_load master_path = inl e ->
     main_io master_path w = (inl e, (init_State, w))) /\
  (forall master_path w records bad rest mach,
     is_dict bad = false ->
     json_load master_path = inr (PyList (map PyDict records ++ bad :: rest)) ->
     for_each_io 1 (map PyDict records) (init_State, w) = (inr tt, mach) ->
     main_io master_path w = (inl (no_attribute bad "get"), mach)) /\
  (forall master_path w,
     file_events (r_trace (snd (snd (main_io master_path w))))
     <> file_events (r_trace w) ->
     exists meetups rows st0 w0 abc,
       json_load master_path = inr meetups /\
       py_iter meetups = inr rows /\
       for_each_io 1 rows (init_State, w) = (inr tt, (st0, w0)) /\
       sorted_buckets st0 = inr abc).
Proof.
  split; [|split; [|split]].
  - intros idx kvs rss_url e st w rest Hurl Ht Hfail.
    destruct (resolve_id_dict idx kvs) as (meetup_id & Hid & _).
    exists meetup_id, (on_error (PyDict kvs) meetup_id rss_url (error_message e) st).
    split; [exact Hid|]. repeat split.
    intros Hp Hu. cbn [for_each_io]. unfold pbind.
    rewrite (loop_body_io_turn idx _ meetup_id rss_url st w Hid Hurl).
    rewrite Ht, Hp, Hu, (attempt_io_fails _ _ _ Hfail).
    now destruct (printable (PyStr (error_message e))).
  - intros master_path w e Hload. rewrite main_io_unfold. now rewrite Hload.
  - intros master_path w records bad rest mach Hbad Hload Hrun.
    rewrite main_io_unfold, Hload, classify_all_io_unfold. cbn [py_len py_iter].
    now rewrite (for_each_io_stops records bad rest 1 _ _ Hbad Hrun).
  - intros master_path w Hfiles.
    destruct (main_io_events (fun _ => True) master_path w (fun _ => I))
      as (t & fs & Htr & Ht & Hfs & Hdone).
    apply Hdone. intros ->. apply Hfiles.
    rewrite Htr, app_nil_r. unfold file_events. rewrite filter_app.
    fold (file_events t). rewrite (turns_no_files _ _ Ht). apply app_nil_r.
Qed.

(** C6.  In a run that completes, the three files hold the three buckets
    of the loop, each put in ascending order of identifier, compared in
    lower case, the identifier of an element that has none being the empty
    string; such an element has only elements without identifier before it.
    ([str.lower] maps the empty string, and nothing else, to the empty
    string.) *)
Theorem C6_output_files_ascending_by_identifier
    (master_path : pystr) (w w' : RWorld) (st : State) :
  lower [] = [] ->
  (forall s, lower s = [] -> s = []) ->
  main_io master_path w = (inr tt, (st, w')) ->
  exists rows st0 w0,
    rbind (json_load master_path) py_iter = inr rows /\
    for_each_io 1 rows (init_State, w) = (inr tt, (st0, w0)) /\
    Permutation (with_events st) (with_events st0) /\
    Permutation (without_events st) (without_events st0) /\
    Permutation (errors st) (errors st0) /\
    r_trace w'
    = r_trace w0 ++ [ Wrote OUT_WITH (with_events st);
                      Wrote OUT_WITHOUT (without_events st);
                      Wrote OUT_ERRORS (errors st) ] /\
    file_events (r_trace w0) = file_events (r_trace w) /\
    ascending_by_identifier (with_events st) /\
    ascending_by_identifier (without_events st) /\
    ascending_by_identifier (errors st) /\
    without_identifier_first (with_events st) /\
    without_identifier_first (without_events st) /\
    without_identifier_first (errors st).
Proof.
  intros Hempty Honly Hmain.
  destruct (main_io_ok_inv _ _ _ _ Hmain)
    as (meetups & rows & st0 & w0 & Hload & Hiter & Hrun & Ha & Hb & Hc & Htr).
  apply sort_by_id_spec in Ha as [Hpa Hsa].
  apply sort_by_id_spec in Hb as [Hpb Hsb].
  apply sort_by_id_spec in Hc as [Hpc Hsc].
  apply sorted_ascending in Hsa, Hsb, Hsc.
  exists rows, st0, w0.
  split; [rewrite Hload; exact Hiter|]. split; [exact Hrun|].
  split; [exact Hpa|]. split; [exact Hpb|]. split; [exact Hpc|].
  split; [exact Htr|].
  split.
  { pose proof (for_each_io_no_files rows 1 (init_State, w)) as H.
    now rewrite Hrun in H. }
  split; [exact Hsa|]. split; [exact Hsb|]. split; [exact Hsc|].
  split; [|split]; now apply ascending_first.
Qed.



(** X12.  When the loop has gone through the records that come before an
    element that is not an object, the run stops at that element: the loop
    raises [AttributeError] for the missing [get], the elements after it are
    never looked at, and [main] ends with that exception, in the state in
    which the records before it left the run. *)
Theorem X12_run_stops_at_non_object
    (master_path : pystr) (records : list (list (pystr * pyval)))
    (bad : pyval) (rest : list pyval) (w w1 : RWorld) (st1 : State) :
  is_dict bad = false ->
  json_load master_path = inr (PyList (map PyDict records ++ bad :: rest)) ->
  for_each_io 1 (map PyDict records) (init_State, w) = (inr tt, (st1, w1)) ->
  main_io master_path w = (inl (no_attribute bad "get"), (st1, w1)) /\
  r_trace w1 = r_trace w ++ loop_trace_io (map PyDict records) (r_rng w).
Proof.
  intros Hbad Hload Hrun. split.
  - rewrite main_io_unfold, Hload, classify_all_io_unfold. cbn [py_len py_iter].
    now rewrite (for_each_io_stops records bad rest 1 _ _ Hbad Hrun).
  - destruct (for_each_io_dicts records 1 init_State st1 w w1 Hrun)
      as (_ & _ & _ & _ & _ & _ & _ & Htr).
    exact Htr.
Qed.

(** X18.  A record whose [meetupID] is truthy and not a string, a number
    for one, does not stop the loop.  When the loop has run to its end, the
    run aborts in the sorts: no file is touched, and the world is as the
    loop left it. *)
Theorem X18_non_string_identifier_aborts_in_the_sorts
    (master_path : pystr) (records : list (list (pystr * pyval)))
    (kvs : list (pystr * pyval)) (w w0 : RWorld) (st0 : State) :
  json_load master_path = inr (PyList (map PyDict records)) ->
  for_each_io 1 (map PyDict records) (init_State, w) = (inr tt, (st0, w0)) ->
  In kvs records ->
  id_sortable (PyDict kvs) = false ->
  exists e st',
    main_io master_path w = (inl e, (st', w0)) /\
    r_trace w0 = r_trace w ++ loop_trace_io (map PyDict records) (r_rng w) /\
    file_events (r_trace w0) = file_events (r_trace w).
Proof.
  intros Hload Hrun Hin Hbad.
  destruct (for_each_io_dicts records 1 init_State st0 w w0 Hrun)
    as (Hw & Hwo & _ & _ & _ & _ & _ & Htr).
  cbn [init_State with_events without_events app] in Hw, Hwo.
  rewrite main_io_unfold, Hload, classify_all_io_unfold. cbn [py_len py_iter].
  rewrite Hrun, sort_and_write_io_spec.
  assert (Hfail : exists e, sorted_buckets st0 = inl e).
  { assert (Hmem : In (PyDict kvs) (with_events st0 ++ without_events st0)).
    { eapply Permutation_in.
      - apply Permutation_sym. rewrite Hw, Hwo.
        apply (pick_partition_perm is_matched), outcomes_io_length.
      - now apply in_map. }
    unfold sorted_buckets.
    destruct (sort_by_id (with_events st0)) as [e1|a] eqn:Ea;
      [exists e1; reflexivity|].
    destruct (sort_by_id (without_events st0)) as [e2|b] eqn:Eb;
      [exists e2; reflexivity|].
    exfalso.
    assert (Ha : forallb id_sortable (with_events st0) = true)
      by (apply (proj1 (sort_by_id_ok_iff _)); exists a; exact Ea).
    assert (Hb : forallb id_sortable (without_events st0) = true)
      by (apply (proj1 (sort_by_id_ok_iff _)); exists b; exact Eb).
    rewrite forallb_forall in Ha, Hb.
    apply in_app_or in Hmem as [Hm|Hm]; [apply Ha in Hm|apply Hb in Hm];
      congruence. }
  destruct Hfail as [e ->]. do 2 eexists. split; [reflexivity|].
  split; [exact Htr|].
  pose proof (for_each_io_no_files (map PyDict records) 1 (init_State, w)) as H.
  now rewrite Hrun in H.
Qed.

(** *** The two levels agree on the runs that complete *)

Lemma loop_body_io_plain (idx : nat) (m : pyval) (st st' : State) (w w' : RWorld) :
  (forall url, make_request url = None) ->
  loop_body_io idx m (st, w) = (inr tt, (st', w')) ->
  loop_body idx m st (plain w) = (inr st', plain w').
Proof.
  intros Hreq.
  destruct (is_dict m) eqn:Hm.
  2:{ rewrite (loop_body_io_not_dict idx m _ Hm). discriminate. }
  destruct m as [| | | | | |kvs]; try discriminate.
  destruct (resolve_id_dict idx kvs) as (meetup_id & Hid & _).
  destruct (py_get_dict kvs (u "meetupUrlRss")) as [rss_url Hurl].
  rewrite (loop_body_io_turn idx _ meetup_id rss_url st w Hid Hurl).
  destruct (truthy rss_url) eqn:Ht.
  - rewrite (loop_body_with_url idx _ meetup_id rss_url st (plain w) Hid Hurl Ht).
    destruct (printable meetup_id); [|discriminate].
    destruct (printable rss_url); [|discriminate].
    unfold attempt_io, with_request, with_pause, attempt. rewrite Hreq.
    unfold plain. cbn [net rng trace r_net r_rng r_trace].
    destruct (rbind (fst (urlopen_read rss_url (r_net w)))
                (fun xml_bytes => rss_has_pubdate_year xml_bytes TARGET_YEAR))
      as [e|[[[] seen] parsed]].
    + destruct (printable (PyStr (error_message e))); [|discriminate].
      intros H. injection H as <- <-. cbn [route r_net r_rng r_trace].
      now rewrite !map_app, <- app_assoc.
    + intros H. injection H as <- <-. cbn [route r_net r_rng r_trace].
      now rewrite !map_app, <- app_assoc.
    + intros H. injection H as <- <-. cbn [route r_net r_rng r_trace].
      now rewrite !map_app, <- app_assoc.
  - assert (Hf : truthy rss_url = false) by exact Ht.
    rewrite (loop_body_missing_url idx _ meetup_id rss_url st (plain w) Hid Hurl Hf).
    destruct (printable meetup_id); [|discriminate].
    intros H. now injection H as <- <-.
Qed.

Lemma for_each_io_plain (ms : list pyval) :
  (forall url, make_request url = None) ->
  forall (idx : nat) (st st' : State) (w w' : RWorld),
  for_each_io idx ms (st, w) = (inr tt, (st', w')) ->
  for_each idx ms st (plain w) = (inr st', plain w').
Proof.
  intros Hreq. induction ms as [|m ms IH]; intros idx st st' w w'.
  - cbn [for_each_io for_each]. unfold pret, ret. intros H. now injection H as <- <-.
  - cbn [for_each_io for_each]. unfold pbind at 1. unfold bind at 1.
    destruct (loop_body_io idx m (st, w)) as [[e|[]] [st1 w1]] eqn:Hturn;
      [discriminate|].
    rewrite (loop_body_io_plain idx m st st1 w w1 Hreq Hturn).
    apply IH.
Qed.

(** When [Request] takes every URL, a run that completes with its console
    and files is a run that completes without them: same buckets, same
    requests and pauses, same three files. *)
Lemma main_io_plain (master_path : pystr) (w w' : RWorld) (st : State) :
  (forall url, make_request url = None) ->
  main_io master_path w = (inr tt, (st, w')) ->
  main master_path (plain w) = (inr tt, plain w').
Proof.
  intros Hreq. rewrite main_io_unfold. unfold main.
  unfold bind at 1. unfold lift at 1.
  destruct (json_load master_path) as [e|meetups] eqn:Hload; [discriminate|].
  rewrite classify_all_io_unfold. unfold bind at 1. unfold classify_all.
  unfold bind at 1. unfold lift at 1.
  destruct (py_len meetups) as [e|total]; [discriminate|].
  unfold bind at 1. unfold lift at 1.
  destruct (py_iter meetups) as [e|rows] eqn:Hiter; [discriminate|].
  destruct (for_each_io 1 rows (init_State, w)) as [[e|[]] [st0 w0]] eqn:Hrun;
    [discriminate|].
  rewrite (for_each_io_plain rows Hreq 1 init_State st0 w w0 Hrun).
  rewrite sort_and_write_io_spec, sort_and_write_spec.
  destruct (sorted_buckets st0) as [e|[[a b] c]] eqn:Hs; [discriminate|].
  cbn zeta. unfold output_files.
  cbn [write_files set_errors set_without_events set_with_events
       with_events without_events errors fst snd].
  destruct (open_write OUT_WITH); [discriminate|].
  destruct (dumpable (PyList a)); [|discriminate].
  destruct (open_write OUT_WITHOUT); [discriminate|].
  destruct (dumpable (PyList b)); [|discriminate].
  destruct (open_write OUT_ERRORS); [discriminate|].
  destruct (dumpable (PyList c)); [|discriminate].
  cbn [fst snd]. intros H. injection H as <- <-.
  unfold plain, three_writes. cbn [net rng trace r_net r_rng r_trace].
  now rewrite map_app.
Qed.

End Program.

(** ** The properties on the concrete environment *)

Notation "'demo_main'" :=
  (main nat Demo.urlopen_read Z Demo.randint Demo.fromstring
        Demo.parsedate_to_datetime Demo.lower Demo.json_load Demo.TARGET_YEAR).
Notation "'demo_loop_body'" :=
  (loop_body nat Demo.urlopen_read Z Demo.randint Demo.fromstring
             Demo.parsedate_to_datetime Demo.TARGET_YEAR).
Notation "'demo_rss'" :=
  (rss_has_pubdate_year Demo.fromstring Demo.parsedate_to_datetime).
Notation "'demo_world'" := (mk_World nat Z 0 42%Z []).

Example demo_run_master :
  observable nat Z (demo_main (u "master_meetups.json") demo_world)
  = (inr tt,
     [ EWrite OUT_WITH [Demo.rec_anonymous; Demo.rec_match];
       EWrite OUT_WITHOUT [Demo.rec_gone; Demo.rec_other_year; Demo.rec_not_xml;
                           Demo.rec_bad_date; Demo.rec_no_url];
       EWrite OUT_ERRORS
         [ error_entry (PyStr (u "Austin")) Demo.url_gone
             (u "HTTPError 404: Not Found");
           error_entry (PyStr (u "Cairo")) Demo.url_not_xml
             (u "XML ParseError: syntax error: line 1, column 0");
           missing_url_entry (PyStr (u "Oslo")) ] ]).
Proof. vm_compute. reflexivity. Qed.

Example demo_classifier :
  demo_rss Demo.bytes_match 2026 = inr (true, 2, 2) /\
  demo_rss Demo.bytes_other_year 2026 = inr (false, 1, 1) /\
  demo_rss Demo.bytes_bad_date 2026 = inr (false, 2, 1) /\
  demo_rss Demo.bytes_no_channel 2026 = inr (false, 0, 0).
Proof. repeat split. Qed.

(** A truthy [meetupID] that is not a string: the record is fetched and
    classified, then the sort raises and no file is written. *)
Example demo_numeric_id_aborts_at_sort :
  let r := demo_main (u "numeric_id.json") demo_world in
  fst r = inl (no_attribute (PyInt 7) "lower") /\
  List.length (fetches (trace nat Z (snd r))) = 1 /\
  writes (trace nat Z (snd r)) = [].
Proof. vm_compute. repeat split. Qed.

Lemma C2_witness :
  exists has_match pubdates_seen pubdates_parsed,
    demo_rss Demo.bytes_match 2026
    = inr (has_match, pubdates_seen, pubdates_parsed) /\
    (has_match = true <->
     exists channel item pub dt,
       find (u "channel") Demo.feed_match = Some channel /\
       In item (findall (u "item") channel) /\
       findtext (u "pubDate") item = Some pub /\
       Demo.parsedate_to_datetime pub = Some dt /\
       year dt = 2026%Z).
Proof.
  exact (proj2 (C2_match_iff_item_in_target_year
                  Demo.fromstring Demo.parsedate_to_datetime
                  Demo.bytes_match Demo.feed_match 2026 eq_refl eq_refl)).
Defined.

Lemma C3_witness :
  item_matches Demo.parsedate_to_datetime 2026
    (Demo.item_with (Some (u "next tuesday"))) = false /\
  exists has_match pubdates_seen pubdates_parsed,
    demo_rss Demo.bytes_bad_date 2026
    = inr (has_match, pubdates_seen, pubdates_parsed) /\
    pubdates_parsed < pubdates_seen.
Proof.
  destruct (C3_malformed_date_is_seen_not_parsed
              nat Demo.urlopen_read Z Demo.randint Demo.fromstring
              Demo.parsedate_to_datetime Demo.TARGET_YEAR
              Demo.bytes_bad_date Demo.feed_bad_date
              (Elem (u "channel") None
                 [ Elem (u "title") (Some (u "Events")) [];
                   Demo.item_with (Some (u "next tuesday"));
                   Demo.item_with (Some Demo.date_2025) ])
              (Demo.item_with (Some (u "next tuesday")))
              (u "next tuesday") 2026
              eq_refl eq_refl (or_introl eq_refl) eq_refl
              (fun H => eq_ind (u "next tuesday")
                          (fun s => match s with [] => False | _ :: _ => True end)
                          I [] H)
              eq_refl)
    as (Hm & h & s & p & Hr & Hlt & _).
  split; [exact Hm|]. exists h, s, p. split; assumption.
Defined.

Lemma C4_witness :
  exists meetup_id st',
    resolve_id 6 Demo.rec_no_url = inr meetup_id /\
    demo_loop_body 6 Demo.rec_no_url init_State demo_world = (inr st', demo_world) /\
    without_events st' = [Demo.rec_no_url] /\
    errors st'
    = [PyDict [ (u "meetupID", meetup_id);
                (u "error", PyStr (u "missing meetupUrlRss")) ]] /\
    error_count st' = 1 /\
    with_events st' = [].
Proof.
  exact (C4_missing_url_is_unmatched_and_errored
           nat Demo.urlopen_read Z Demo.randint Demo.fromstring
           Demo.parsedate_to_datetime Demo.TARGET_YEAR
           6 [ (u "meetupID", PyStr (u "Oslo")) ] PyNone init_State demo_world
           eq_refl eq_refl).
Defined.

(** The run on that file: the first record is fetched, the second element
    is a number and the loop raises on it; nothing is written. *)
Example demo_stray_number_aborts_in_loop :
  let r := demo_main (u "stray_number.json") demo_world in
  Demo.json_load (u "stray_number.json") = inr (PyList [Demo.rec_match; PyInt 5]) /\
  fst r = inl (no_attribute (PyInt 5) "get") /\
  fetches (trace nat Z (snd r)) = [EFetch Demo.url_match] /\
  writes (trace nat Z (snd r)) = [].
Proof. vm_compute. repeat split. Qed.



Lemma C8_witness :
  observable nat Z (demo_main (u "master_meetups.json") (mk_World nat Z 0 42%Z []))
  = observable nat Z (demo_main (u "master_meetups.json") (mk_World nat Z 17 7%Z [])).
Proof.
  exact (C8_outputs_do_not_depend_on_pauses
           nat Demo.urlopen_read Z Demo.randint Demo.fromstring
           Demo.parsedate_to_datetime Demo.lower Demo.json_load Demo.TARGET_YEAR
           Demo.response (u "master_meetups.json") 0 17 42%Z 7%Z
           (fun url n => eq_refl)).
Defined.

Lemma C9_witness :
  exists rows pre a b c,
    rbind (Demo.json_load (u "master_meetups.json")) py_iter = inr rows /\
    trace nat Z (snd (demo_main (u "master_meetups.json") demo_world))
    = pre ++ [EWrite OUT_WITH a; EWrite OUT_WITHOUT b; EWrite OUT_ERRORS c] /\
    writes pre = [] /\
    Permutation (a ++ b) rows /\
    (forall x, In x (a ++ b) <-> In x rows) /\
    (forall x k, In x (a ++ b) ->
                 exists y, In y rows /\ py_get x k = py_get y k).
Proof.
  apply (C9_records_pass_through_unchanged
           nat Demo.urlopen_read Z Demo.randint Demo.fromstring
           Demo.parsedate_to_datetime Demo.lower Demo.json_load Demo.TARGET_YEAR
           (u "master_meetups.json") demo_world).
  vm_compute. reflexivity.
Defined.

Lemma C10_witness :
  item_step Demo.parsedate_to_datetime 2026 (Demo.item_with None) (true, 3, 2)
  = (true, 3, 2) /\
  item_step Demo.parsedate_to_datetime 2026 Demo.item_without_date (true, 3, 2)
  = (true, 3, 2).
Proof.
  exact (proj1 (C10_empty_pubdate_is_like_no_pubdate
                  Demo.parsedate_to_datetime
                  (Demo.item_with None) Demo.item_without_date
                  (Elem (u "pubDate") None []) 2026
                  eq_refl (or_introl eq_refl) eq_refl) (true, 3, 2)).
Defined.

Lemma X1_witness :
  3 = 3 /\ 7 = 7 /\ 1 = 1 /\ 1 = 1 /\ 1 = 1.
Proof.
  exact (X1_fmt_tally_injective 3 7 1 1 1 3 7 1 1 1 eq_refl).
Defined.

Lemma X2_witness :
  exists matched no_match err,
    tally_line 1 (on_missing_url Demo.rec_no_url (PyStr (u "Oslo")) init_State)
    = fmt_tally 1 1 matched no_match err /\
    matched + no_match + err = 1.
Proof.
  exact (proj2 (proj2
    (X2_tally_counts_add_up
       nat Demo.urlopen_read Z Demo.randint Demo.fromstring
       Demo.parsedate_to_datetime Demo.TARGET_YEAR
       [Demo.rec_no_url] 1
       (on_missing_url Demo.rec_no_url (PyStr (u "Oslo")) init_State)
       demo_world demo_world eq_refl))).
Defined.

Lemma X3_witness :
  demo_rss Demo.bytes_other_year 2026 = inr (false, 1, 1).
Proof.
  apply (X3_all_dates_in_other_years
           Demo.fromstring Demo.parsedate_to_datetime
           Demo.bytes_other_year Demo.feed_other_year
           (Elem (u "channel") None
              [ Elem (u "title") (Some (u "Events")) [];
                Demo.item_with (Some Demo.date_2025) ])
           2026 eq_refl eq_refl).
  intros item [<-|[]].
  exists Demo.date_2025, (mk_datetime 2025 12 1).
  repeat split; discriminate.
Defined.

Lemma X4_witness :
  exists has_match pubdates_seen pubdates_parsed,
    demo_rss Demo.bytes_bad_date 2026
    = inr (has_match, pubdates_seen, pubdates_parsed) /\
    pubdates_parsed <= pubdates_seen /\
    (forall channel, find (u "channel") Demo.feed_bad_date = Some channel ->
       pubdates_seen <= List.length (findall (u "item") channel)) /\
    (has_match = true -> 1 <= pubdates_parsed).
Proof.
  exact (X4_counts_are_bounded
           Demo.fromstring Demo.parsedate_to_datetime
           Demo.bytes_bad_date Demo.feed_bad_date 2026 eq_refl).
Defined.

Lemma X7_witness :
  item_step Demo.parsedate_to_datetime 2026
    (Elem (u "item") None
       [ Elem (u "title") None []; Elem (u "pubDate") (Some Demo.date_2025) [];
         Elem (u "pubDate") (Some Demo.date_2026) [] ])
    (false, 0, 0)
  = item_step Demo.parsedate_to_datetime 2026
      (Elem (u "item") None
         [ Elem (u "title") None []; Elem (u "pubDate") (Some Demo.date_2025) [] ])
      (false, 0, 0).
Proof.
  exact (X7_only_first_pubdate_is_read
           Demo.parsedate_to_datetime (u "item") (u "item") None None
           [ Elem (u "title") None [] ]
           [ Elem (u "pubDate") (Some Demo.date_2026) [] ] []
           (Elem (u "pubDate") (Some Demo.date_2025) [])
           2026 (false, 0, 0) eq_refl eq_refl).
Defined.

Lemma X8_witness :
  demo_rss Demo.bytes_not_xml 2026
  = inl (ParseError (u "syntax error: line 1, column 0")).
Proof.
  exact (proj2 (X8_classifier_raises_only_parser_errors
                  Demo.fromstring Demo.parsedate_to_datetime
                  Demo.bytes_not_xml 2026
                  (ParseError (u "syntax error: line 1, column 0")))
               eq_refl).
Defined.

Lemma X9_witness :
  resolve_id 4 (PyDict [ (u "meetupUrlRss", Demo.url_match) ])
  = inr (PyStr (u "row-4")) /\
  truthy (PyStr (u "row-4")) = true /\
  (resolve_id 4 (PyDict [ (u "meetupUrlRss", Demo.url_match) ])
   = resolve_id 4 (PyDict []) -> 4 = 4).
Proof.
  exact (X9_row_fallback_identifiers_are_distinct
           4 4 (PyDict [ (u "meetupUrlRss", Demo.url_match) ]) (PyDict [])
           eq_refl eq_refl).
Defined.


Notation "'demo2_main'" :=
  (main nat Demo.urlopen_read Z Demo.randint Demo.fromstring
        Demo.parsedate_to_datetime Demo.lower Demo2.json_load Demo.TARGET_YEAR).
Notation "'demo2_rss'" :=
  (rss_has_pubdate_year Demo2.fromstring Demo.parsedate_to_datetime).

Lemma X5_witness :
  demo2_rss Demo2.bytes_a 2026 = demo2_rss Demo2.bytes_b 2026.
Proof.
  apply (X5_item_order_is_irrelevant
           Demo2.fromstring Demo.parsedate_to_datetime
           Demo2.bytes_a Demo2.bytes_b Demo2.doc_a Demo2.doc_b
           Demo2.channel_a Demo2.channel_b
           2026 eq_refl eq_refl eq_refl eq_refl).
  apply perm_swap.
Defined.

Lemma X6_witness :
  demo2_rss Demo2.bytes_two_channels 2026 = demo2_rss Demo2.bytes_one_channel 2026.
Proof.
  exact (X6_only_first_channel_is_read
           Demo2.fromstring Demo.parsedate_to_datetime
           Demo2.bytes_two_channels Demo2.bytes_one_channel
           (u "rss") (u "rss") None None
           [] [] [Demo2.channel_new] [] Demo2.channel_old
           2026 eq_refl eq_refl eq_refl eq_refl eq_refl).
Defined.

Lemma X13_witness :
  demo2_main (u "empty.json") demo_world
  = (inr tt,
     mk_World nat Z 0 42%Z
       [EWrite OUT_WITH []; EWrite OUT_WITHOUT []; EWrite OUT_ERRORS []]).
Proof.
  exact (X13_empty_input_writes_three_empty_files
           nat Demo.urlopen_read Z Demo.randint Demo.fromstring
           Demo.parsedate_to_datetime Demo.lower Demo2.json_load Demo.TARGET_YEAR
           (u "empty.json") (PyList []) demo_world eq_refl eq_refl).
Defined.

Lemma X14_witness :
  exists e,
    demo2_main (u "object.json") demo_world = (inl e, demo_world) /\
    exists k, Some (u "meetups", PyList [Demo.rec_match]) = Some k /\
              e = no_attribute (PyStr (fst k)) "get".
Proof.
  apply (X14_input_that_is_not_an_array
           nat Demo.urlopen_read Z Demo.randint Demo.fromstring
           Demo.parsedate_to_datetime Demo.lower Demo2.json_load Demo.TARGET_YEAR
           (u "object.json") (PyDict [ (u "meetups", PyList [Demo.rec_match]) ])
           demo_world eq_refl).
  - intros l H. discriminate H.
  - intros H. discriminate H.
Defined.

Lemma X15_witness :
  filter (has_key Demo.lower (u "oslo"))
         [Demo2.rec_upper; Demo2.rec_lower; Demo.rec_match]
  = filter (has_key Demo.lower (u "oslo"))
           [Demo.rec_match; Demo2.rec_upper; Demo2.rec_lower].
Proof.
  exact (X15_sort_is_stable Demo.lower
           [Demo.rec_match; Demo2.rec_upper; Demo2.rec_lower]
           [Demo2.rec_upper; Demo2.rec_lower; Demo.rec_match]
           (u "oslo") eq_refl).
Defined.

Lemma X16_witness :
  sort_by_id Demo.lower [Demo2.rec_upper; Demo2.rec_lower; Demo.rec_match]
  = inr [Demo2.rec_upper; Demo2.rec_lower; Demo.rec_match].
Proof.
  exact (X16_sort_is_idempotent Demo.lower
           [Demo.rec_match; Demo2.rec_upper; Demo2.rec_lower]
           [Demo2.rec_upper; Demo2.rec_lower; Demo.rec_match] eq_refl).
Defined.

Lemma X17_witness :
  exists x,
    In x [Demo.rec_match; Demo.rec_numeric_id] /\
    id_sortable x = false /\
    sort_key Demo.lower x = inl (no_attribute (PyInt 7) "lower").
Proof.
  exact (proj1 (proj2 (X17_sort_raises_on_non_string_identifier Demo.lower
                         [Demo.rec_match; Demo.rec_numeric_id]))
               (no_attribute (PyInt 7) "lower") eq_refl).
Defined.

Lemma X19_witness :
  exists pre a b c,
    trace nat Z (snd (demo_main (u "master_meetups.json") demo_world))
    = pre ++ [EWrite OUT_WITH a; EWrite OUT_WITHOUT b; EWrite OUT_ERRORS c] /\
    Forall well_shaped_entry c /\
    Forall (fun entry => lacks_id entry = false) c /\
    List.length c <= List.length b.
Proof.
  apply (X19_error_entries_are_well_shaped
           nat Demo.urlopen_read Z Demo.randint Demo.fromstring
           Demo.parsedate_to_datetime Demo.lower Demo.json_load Demo.TARGET_YEAR
           (u "master_meetups.json") demo_world).
  vm_compute. reflexivity.
Defined.

(** ** The run with its console and files, on the concrete environment *)

Notation "'demo_main_io'" :=
  (main_io nat Demo.urlopen_read Z Demo.randint Demo3.fromstring
           Demo.parsedate_to_datetime Demo.lower Demo3.json_load Demo.TARGET_YEAR
           Demo3.make_request Demo3.printable Demo3.encode_error_text
           Demo3.open_write Demo3.dump_error_text).
Notation "'demo_for_each_io'" :=
  (for_each_io nat Demo.urlopen_read Z Demo.randint Demo3.fromstring
               Demo.parsedate_to_datetime Demo.TARGET_YEAR
               Demo3.make_request Demo3.printable Demo3.encode_error_text).
Notation "'demo_rworld'" := (mk_RWorld nat Z 0 42%Z []).

Lemma demo_lower_only_empty (s : pystr) : Demo.lower s = [] -> s = [].
Proof. destruct s; [reflexivity|discriminate]. Qed.

(** An identifier the console cannot encode: the record is appended, the
    line that reports it raises, and the record after it reaches no
    bucket. *)
Example demo_unprintable_identifier_stops_the_loop :
  demo_main_io (u "surrogate_id.json") demo_rworld
  = (inl (OtherException (Demo3.encode_error_text (PyStr Demo3.lone_surrogate))),
     (on_missing_url Demo3.rec_surrogate_id (PyStr Demo3.lone_surrogate) init_State,
      demo_rworld)).
Proof. vm_compute. reflexivity. Qed.

(** A surrogate in a field of a record: the loop and the sorts go through,
    the first file is written, the dump of the second raises part-way and
    the third file is never opened. *)
Example demo_surrogate_stops_the_writing :
  let r := demo_main_io (u "surrogate_field.json") demo_rworld in
  fst r = inl (OtherException (Demo3.dump_error_text [Demo3.rec_surrogate_field])) /\
  r_trace nat Z (snd (snd r))
  = [ Wrote OUT_WITH []; LeftPartial OUT_WITHOUT [Demo3.rec_surrogate_field] ].
Proof. vm_compute. split; reflexivity. Qed.

(** A feed URL that [Request] refuses: no request goes out, the record is
    an error, the pause is taken all the same. *)
Example demo_refused_url_is_an_error_with_a_pause :
  let r := demo_for_each_io 1 [Demo3.rec_not_a_url] (init_State, demo_rworld) in
  fst r = inr tt /\
  errors (fst (snd r))
  = [ error_entry (PyStr (u "Lima")) (PyStr (u "not a url")) (u "unknown url type") ] /\
  r_trace nat Z (snd (snd r)) = [Slept 52].
Proof. vm_compute. repeat split. Qed.



Lemma C3_counterexample :
  ~ unparsed_date_is_always_seen Demo3.fromstring Demo.parsedate_to_datetime.
Proof.
  intros H.
  destruct (H Demo3.bytes_empty_date Demo3.feed_empty_date
              (Elem (u "channel") None
                 [ Elem (u "title") (Some (u "Events")) [];
                   Demo.item_with (Some []) ])
              (Demo.item_with (Some [])) [] 2026%Z
              eq_refl eq_refl (or_introl eq_refl) eq_refl eq_refl)
    as (has_match & seen & parsed & Hr & Hlt).
  vm_compute in Hr. injection Hr as _ <- <-. lia.
Qed.

Lemma C5_counterexample :
  ~ only_a_failed_load_is_fatal nat Demo.urlopen_read Z Demo.randint
      Demo3.fromstring Demo.parsedate_to_datetime Demo.lower Demo3.json_load
      Demo.TARGET_YEAR Demo3.make_request Demo3.printable Demo3.encode_error_text
      Demo3.open_write Demo3.dump_error_text.
Proof.
  intros H.
  assert (E : exists e mach,
            demo_main_io (u "stray_number.json") demo_rworld = (inl e, mach))
    by (vm_compute; eauto).
  destruct E as (e & mach & E).
  destruct (H _ _ _ _ E) as [Hload Hmach].
  vm_compute in E. injection E as _ <-. discriminate Hmach.
Qed.

(** The run on that file: the first record is requested and paused for,
    the second element is a number and the loop raises on it. *)
Example demo_stray_number_stops_the_run :
  let r := demo_main_io (u "stray_number.json") demo_rworld in
  fst r = inl (no_attribute (PyInt 5) "get") /\
  r_trace nat Z (snd (snd r)) = [Requested Demo.url_match; Slept 52].
Proof. vm_compute. split; reflexivity. Qed.

Lemma C5_witness :
  (exists meetup_id st',
     resolve_id 3 Demo.rec_gone = inr meetup_id /\
     errors st'
     = [PyDict [ (u "meetupID", meetup_id);
                 (u "meetupUrlRss", Demo.url_gone);
                 (u "error", PyStr (u "HTTPError 404: Not Found")) ]] /\
     without_events st' = [Demo.rec_gone] /\
     demo_for_each_io 3 [Demo.rec_gone] (init_State, demo_rworld)
     = (inr tt, (st', mk_RWorld nat Z 1 1250496027%Z
                        [Requested Demo.url_gone; Slept 52]))) /\
  demo_main_io (u "no_such_file.json") demo_rworld
  = (inl (OtherException (u "[Errno 2] No such file or directory")),
     (init_State, demo_rworld)).
Proof.
  destruct (C5_fetch_and_parse_failures_are_caught
              nat Demo.urlopen_read Z Demo.randint Demo3.fromstring
              Demo.parsedate_to_datetime Demo.lower Demo3.json_load Demo.TARGET_YEAR
              Demo3.make_request Demo3.printable Demo3.encode_error_text
              Demo3.open_write Demo3.dump_error_text)
    as (Hrec & Hload & _ & _).
  split.
  - destruct (Hrec 3 [ (u "meetupID", PyStr (u "Austin"));
                       (u "meetupUrlRss", Demo.url_gone) ]
                   Demo.url_gone (HTTPError 404 (u "Not Found"))
                   init_State demo_rworld []
                   eq_refl eq_refl (or_intror (or_introl (conj eq_refl eq_refl))))
      as (meetup_id & st' & Hid & He & Hwo & _ & Hgo).
    exists meetup_id, st'. split; [exact Hid|]. split; [exact He|].
    split; [exact Hwo|].
    injection Hid as <-.
    exact (Hgo eq_refl eq_refl).
  - exact (Hload (u "no_such_file.json") demo_rworld _ eq_refl).
Defined.

Lemma C6_witness :
  let r := demo_main_io (u "master_meetups.json") demo_rworld in
  ascending_by_identifier Demo.lower (with_events (fst (snd r))) /\
  ascending_by_identifier Demo.lower (without_events (fst (snd r))) /\
  ascending_by_identifier Demo.lower (errors (fst (snd r))) /\
  without_identifier_first (with_events (fst (snd r))) /\
  with_events (fst (snd r)) = [Demo.rec_anonymous; Demo.rec_match] /\
  without_events (fst (snd r))
  = [Demo.rec_gone; Demo.rec_other_year; Demo.rec_not_xml; Demo.rec_bad_date;
     Demo.rec_no_url].
Proof.
  cbn zeta.
  destruct (C6_output_files_ascending_by_identifier
              nat Demo.urlopen_read Z Demo.randint Demo3.fromstring
              Demo.parsedate_to_datetime Demo.lower Demo3.json_load Demo.TARGET_YEAR
              Demo3.make_request Demo3.printable Demo3.encode_error_text
              Demo3.open_write Demo3.dump_error_text
              (u "master_meetups.json") demo_rworld
              (snd (snd (demo_main_io (u "master_meetups.json") demo_rworld)))
              (fst (snd (demo_main_io (u "master_meetups.json") demo_rworld)))
              eq_refl demo_lower_only_empty)
    as (rows & st0 & w0 & _ & _ & _ & _ & _ & _ & _ & Ha & Hb & Hc & Hfa & _).
  { vm_compute. reflexivity. }
  split; [exact Ha|]. split; [exact Hb|]. split; [exact Hc|].
  split; [exact Hfa|]. split; vm_compute; reflexivity.
Defined.



Lemma X12_witness :
  demo_main_io (u "stray_number.json") demo_rworld
  = (inl (no_attribute (PyInt 5) "get"),
     (on_match Demo.rec_match init_State,
      mk_RWorld nat Z 1 1250496027%Z [Requested Demo.url_match; Slept 52])) /\
  [Requested Demo.url_match; Slept 52]
  = [] ++ loop_trace_io Z Demo.randint Demo3.make_request [Demo.rec_match] 42%Z.
Proof.
  exact (X12_run_stops_at_non_object
           nat Demo.urlopen_read Z Demo.randint Demo3.fromstring
           Demo.parsedate_to_datetime Demo.lower Demo3.json_load Demo.TARGET_YEAR
           Demo3.make_request Demo3.printable Demo3.encode_error_text
           Demo3.open_write Demo3.dump_error_text
           (u "stray_number.json")
           [ [ (u "meetupID", PyStr (u "Zurich")); (u "meetupUrlRss", Demo.url_match) ] ]
           (PyInt 5) [] demo_rworld
           (mk_RWorld nat Z 1 1250496027%Z [Requested Demo.url_match; Slept 52])
           (on_match Demo.rec_match init_State)
           eq_refl eq_refl eq_refl).
Defined.

Lemma X18_witness :
  exists e st',
    demo_main_io (u "numeric_id.json") demo_rworld
    = (inl e, (st', mk_RWorld nat Z 1 1250496027%Z [Requested Demo.url_match; Slept 52])) /\
    [Requested Demo.url_match; Slept 52]
    = [] ++ loop_trace_io Z Demo.randint Demo3.make_request [Demo.rec_numeric_id] 42%Z /\
    file_events [Requested Demo.url_match; Slept 52] = file_events [].
Proof.
  exact (X18_non_string_identifier_aborts_in_the_sorts
           nat Demo.urlopen_read Z Demo.randint Demo3.fromstring
           Demo.parsedate_to_datetime Demo.lower Demo3.json_load Demo.TARGET_YEAR
           Demo3.make_request Demo3.printable Demo3.encode_error_text
           Demo3.open_write Demo3.dump_error_text
           (u "numeric_id.json")
           [ [ (u "meetupID", PyInt 7); (u "meetupUrlRss", Demo.url_match) ] ]
           [ (u "meetupID", PyInt 7); (u "meetupUrlRss", Demo.url_match) ]
           demo_rworld
           (mk_RWorld nat Z 1 1250496027%Z [Requested Demo.url_match; Slept 52])
           (on_match Demo.rec_numeric_id init_State)
           eq_refl eq_refl (or_introl eq_refl) eq_refl).
Defined.
